(** * Sleep-Detection telemetry core: the service layer of
      [src/api/services/services.py], embedded and verified.

    The embedding follows the three parts of the aggregation engine:
    the severity classifier and the bounded event cache of
    [DetectionService], its statistics, and the windowed analytics and
    dashboard of [AnalyticsService].

    Python values are modelled as the code has them:
    - [int] is [Z] (unbounded);
    - [float] is Rocq's primitive binary64 [float], the same IEEE 754
      format CPython uses, so comparisons, sums and quotients are the
      machine operations themselves;
    - [str] is [string];
    - an event, always built with the same five keys, is a record;
    - the dictionaries returned by the statistics functions, whose key
      sets differ from branch to branch, are [gmap string value];
    - exceptions are an explicit [result] type. *)

From Stdlib Require Import ZArith Ascii String Floats.
From stdpp Require Import gmap strings list fin_maps.

Set Warnings "-inexact-float".

Local Open Scope string_scope.
Local Open Scope list_scope.

(** ** Exceptions *)

Inductive exn : Type :=
| ValueError
| TypeError
| OverflowError
| ZeroDivisionError
| KeyError.

Inductive result (A : Type) : Type :=
| Ok (a : A)
| Raise (e : exn).

Arguments Ok {A} a.
Arguments Raise {A} e.

(** Sequencing stops at the first exception. *)
#[global] Instance result_ret : MRet result := fun _ a => Ok a.

#[global] Instance result_bind : MBind result := fun _ _ k r =>
  match r with
  | Ok a => k a
  | Raise e => Raise e
  end.

(** ** Python numbers *)

Module Py.

(** Nearest binary64 number to the positive quotient [a / b], ties to
    even: the quotient is taken with at least two guard bits and the
    remainder decides the rounding location. *)
Definition div_nearest (s : bool) (a b : positive) : spec_float :=
  let k := Z.max 0 (Z.log2 (Zpos b) + 55 - Z.log2 (Zpos a)) in
  let num := Z.shiftl (Zpos a) k in
  let q := (num / Zpos b)%Z in
  let r := (num mod Zpos b)%Z in
  let loc := if (r =? 0)%Z then loc_Exact
             else loc_Inexact (Z.compare (2 * r) (Zpos b)) in
  binary_round_aux prec emax s q (- k) loc.

Definition finite_or_overflow (x : spec_float) : result float :=
  match x with
  | S754_infinity _ => Raise OverflowError
  | _ => Ok (SF2Prim x)
  end.

(** [float(n)] for an [int]: correctly rounded, [OverflowError] beyond
    the binary64 range. *)
(** An [int] of magnitude below [2^53] converts exactly. *)
Definition small (n : Z) : bool := (Z.abs n <? 2 ^ 53)%Z.

Definition float_of_small (n : Z) : float :=
  let m := of_uint63 (Uint63.of_Z (Z.abs n)) in
  if (n <? 0)%Z then (- m)%float else m.

(** [float(n)] for an [int]: exact when [n] is small, otherwise
    correctly rounded, [OverflowError] beyond the binary64 range. *)
Definition float_of_int (n : Z) : result float :=
  if small n then Ok (float_of_small n)
  else finite_or_overflow (binary_normalize prec emax n 0 false).

(** [a / b] on two [int]s (true division).  As in CPython's
    [long_true_divide]: operands that are both exactly representable
    are converted and divided by the machine; otherwise the quotient
    is rounded once from the exact integers and may overflow. *)
Definition int_truediv (a b : Z) : result float :=
  if (b =? 0)%Z then Raise ZeroDivisionError
  else if small a && small b then Ok (float_of_small a / float_of_small b)%float
  else
    let s := xorb (a <? 0)%Z (b <? 0)%Z in
    match Z.abs a, Z.abs b with
    | Zpos pa, Zpos pb => finite_or_overflow (div_nearest s pa pb)
    | _, _ => Ok (if s then neg_zero else zero)
    end.

(** [x / n] for a [float] and an [int]. *)
Definition float_truediv_int (x : float) (n : Z) : result float :=
  d ← float_of_int n;
  if (n =? 0)%Z then Raise ZeroDivisionError else Ok (x / d)%float.

(** [sum(...)] over [float]s, from the [int] start value [0]: the
    running total is added to from left to right.  (CPython from 3.12
    on also carries a compensation term; the properties below do not
    depend on how the total is accumulated.) *)
Definition sum_float (l : list float) : float :=
  fold_left PrimFloat.add l zero.

(** [sum(...)] over [int]s. *)
Definition sum_int (l : list Z) : Z :=
  fold_left Z.add l 0%Z.

(** Integer nearest to [num / den] ([den > 0]), ties to even. *)
Definition round_half_even (num den : Z) : Z :=
  let q := (num / den)%Z in
  let r := (num mod den)%Z in
  match (2 * r ?= den)%Z with
  | Lt => q
  | Gt => (q + 1)%Z
  | Eq => if Z.even q then q else (q + 1)%Z
  end.

(** [round(x, ndigits)] on a [float]: the exact binary value of [x] is
    rounded to [ndigits] decimals, ties to even, and the decimal
    result is converted back to the nearest binary64 number
    ([OverflowError] when that is out of range).  A value with a
    non-negative binary exponent is an integer, which rounding to zero
    or more decimals leaves as it is. *)
Definition round (x : float) (ndigits : Z) : result float :=
  match Prim2SF x with
  | S754_finite s m e =>
      if (323 <? ndigits)%Z then Ok x
      else if (ndigits <? -308)%Z then Ok (zero * x)%float
      else if (0 <=? e)%Z && (0 <=? ndigits)%Z then Ok x
      else
        let num := (Zpos m * 2 ^ Z.max e 0 * 10 ^ Z.max ndigits 0)%Z in
        let den := (2 ^ Z.max (- e) 0 * 10 ^ Z.max (- ndigits) 0)%Z in
        let n := round_half_even num den in
        match (n * 10 ^ Z.max (- ndigits) 0)%Z, (10 ^ Z.max ndigits 0)%Z with
        | Zpos a, Zpos b => finite_or_overflow (div_nearest s a b)
        | _, _ => Ok (if s then neg_zero else zero)
        end
  | _ => Ok x
  end.

End Py.

(** ** Events and the detection service *)

(** The dictionary built by [process_detection_event]. *)
Record event : Type := Event {
  timestamp : string;
  ear_value : float;
  is_drowsy : bool;
  duration_ms : Z;
  severity : string
}.

(** The fields set by [DetectionService.__init__]. *)
Record DetectionService : Type := {
  events_cache : list event;
  max_cache_size : Z
}.

Definition init : DetectionService :=
  {| events_cache := []; max_cache_size := 1000 |}.

(** [DetectionService._calculate_severity] *)
Definition _calculate_severity (ear_value : float) (duration_ms : Z) : string :=
  if (0.25 <? ear_value)%float then "none"
  else if (duration_ms <? 2000)%Z then "low"
  else if (duration_ms <? 5000)%Z then "medium"
  else "high".

(** [list.pop(0)]: the list without its first element. *)
Definition pop0 {A : Type} (l : list A) : list A := tail l.

(** [DetectionService.process_detection_event].  [utcnow] is what
    [datetime.utcnow().isoformat()] yields at the call; it is read only
    when the caller gave no timestamp.  Returns the event and the
    service after the cache update. *)
Definition process_detection_event (self : DetectionService)
    (ear_value : float) (is_drowsy : bool) (duration_ms : Z)
    (timestamp : option string) (utcnow : string)
  : event * DetectionService :=
  let timestamp := match timestamp with
                   | None => utcnow
                   | Some t => t
                   end in
  let event := {| timestamp := timestamp;
                  ear_value := ear_value;
                  is_drowsy := is_drowsy;
                  duration_ms := duration_ms;
                  severity := _calculate_severity ear_value duration_ms |} in
  let cache := events_cache self ++ [event] in
  let cache := if (max_cache_size self <? Z.of_nat (length cache))%Z
               then pop0 cache else cache in
  (event, {| events_cache := cache; max_cache_size := max_cache_size self |}).

(** A [list] slice [l[start:]]: a negative start counts from the end,
    and both ends are clipped to the list. *)
Definition slice_from {A : Type} (start : Z) (l : list A) : list A :=
  let n := Z.of_nat (length l) in
  let s := if (start <? 0)%Z then Z.max (start + n) 0 else Z.min start n in
  drop (Z.to_nat s) l.

(** [DetectionService.get_recent_events] *)
Definition get_recent_events (self : DetectionService) (limit : Z) : list event :=
  match events_cache self with
  | [] => []
  | _ => slice_from (- limit) (events_cache self)
  end.

(** [DetectionService.clear_cache]: the count and the emptied service. *)
Definition clear_cache (self : DetectionService) : Z * DetectionService :=
  let count := Z.of_nat (length (events_cache self)) in
  (count, {| events_cache := []; max_cache_size := max_cache_size self |}).

(** ** Statistics *)

(** The values held by the result dictionaries. *)
Inductive value : Type :=
| VInt (n : Z)
| VFloat (x : float)
| VStr (s : string)
| VDict (d : gmap string Z).

(** [sum(1 for e in events if e["is_drowsy"])] *)
Definition count_drowsy (events : list event) : Z :=
  Py.sum_int (map (fun _ => 1%Z) (filter (fun e => is_drowsy e = true) events)).

(** The loop filling [severity_counts]. *)
Definition severity_counts (events : list event) : gmap string Z :=
  fold_left
    (fun counts event =>
       let severity := severity event in
       <[severity := (default 0 (counts !! severity) + 1)%Z]> counts)
    events ∅.

(** [DetectionService.get_statistics] *)
Definition get_statistics (self : DetectionService) : result (gmap string value) :=
  match events_cache self with
  | [] =>
      Ok {[ "total_events" := VInt 0;
            "drowsy_events" := VInt 0;
            "average_ear" := VFloat 0;
            "average_duration" := VFloat 0;
            "severity_distribution" := VDict ∅ ]}
  | _ =>
      let total := Z.of_nat (length (events_cache self)) in
      let drowsy := count_drowsy (events_cache self) in
      avg_ear ← Py.float_truediv_int
                  (Py.sum_float (map ear_value (events_cache self))) total;
      avg_duration ← Py.int_truediv
                       (Py.sum_int (map duration_ms (events_cache self))) total;
      let severity_counts := severity_counts (events_cache self) in
      average_ear ← Py.round avg_ear 3;
      average_duration_ms ← Py.round avg_duration 2;
      drowsiness_rate ←
        (if (0 <? total)%Z
         then ratio ← Py.int_truediv drowsy total;
              rate ← Py.round (ratio * 100)%float 2;
              Ok (VFloat rate)
         else Ok (VInt 0));
      Ok {[ "total_events" := VInt total;
            "drowsy_events" := VInt drowsy;
            "average_ear" := VFloat average_ear;
            "average_duration_ms" := VFloat average_duration_ms;
            "severity_distribution" := VDict severity_counts;
            "drowsiness_rate" := drowsiness_rate ]}
  end.

(** ** Time *)

(** A [datetime]: the microseconds since 0001-01-01T00:00:00, and
    whether it carries a UTC offset ("aware") or not ("naive").
    [datetime.utcnow()] is naive. *)
Inductive datetime : Type :=
| Naive (us : Z)
| Aware (us : Z).

(** [datetime.fromisoformat] is the interpreter's: which strings it
    accepts depends on the Python version.  The analytics are written
    against any such parser; [None] stands for its [ValueError]. *)
Class IsoFormat : Type := fromisoformat : string -> option datetime.

(** [timedelta(hours=1)] in microseconds. *)
Definition one_hour : Z := 3600000000.

(** *** A parser for the strings [datetime.isoformat()] produces

    [Iso.parse] is not [datetime.fromisoformat]: it reads only the two
    shapes [isoformat()] writes for a naive datetime, which every
    version of [fromisoformat] reads alike, and rejects every other
    string, among them strings that [fromisoformat] reads as naive or
    as aware datetimes.  It serves to evaluate the analytics on
    concrete caches.  The timestamps evaluated with it are of those
    two shapes, but for the example of the request schema, which ends
    in "Z": [Iso.parse] rejects it, as [fromisoformat] does up to
    Python 3.10, while later versions read it as an aware datetime; in
    either case it is not read as a naive datetime. *)

Module Iso.

Definition digit (c : ascii) : option Z :=
  let n := Z.of_N (Ascii.N_of_ascii c) in
  if (48 <=? n)%Z && (n <=? 57)%Z then Some (n - 48)%Z else None.

(** A run of digits read as a decimal number. *)
Fixpoint number (acc : Z) (l : list ascii) : option Z :=
  match l with
  | [] => Some acc
  | c :: l => d ← digit c; number (10 * acc + d)%Z l
  end.

Definition is_leap (y : Z) : bool :=
  ((y mod 4 =? 0) && (negb (y mod 100 =? 0) || (y mod 400 =? 0)))%Z.

Definition days_in_month (y m : Z) : Z :=
  if (m =? 2)%Z then (if is_leap y then 29 else 28)%Z
  else if ((m =? 4) || (m =? 6) || (m =? 9) || (m =? 11))%Z then 30%Z
  else 31%Z.

Definition days_before_year (y : Z) : Z :=
  let y := (y - 1)%Z in
  (y * 365 + y / 4 - y / 100 + y / 400)%Z.

Fixpoint days_before_month (y : Z) (m : nat) : Z :=
  match m with
  | O => 0%Z
  | S m' => (days_before_month y m' + days_in_month y (Z.of_nat m))%Z
  end.

(** Microseconds since 0001-01-01T00:00:00 of a valid civil time. *)
Definition to_us (y mo d h mi s us : Z) : option Z :=
  if ((1 <=? y) && (y <=? 9999) && (1 <=? mo) && (mo <=? 12)
      && (1 <=? d) && (d <=? days_in_month y mo)
      && (h <? 24) && (mi <? 60) && (s <? 60))%Z
  then
    let days := (days_before_year y
                 + days_before_month y (Z.to_nat (mo - 1)) + (d - 1))%Z in
    Some ((((days * 24 + h) * 60 + mi) * 60 + s) * 1000000 + us)%Z
  else None.

(** [YYYY-MM-DD?HH:MM:SS] with an optional [.ffffff]; the separator of
    date and time is any one character.  Everything else is
    rejected. *)
Definition parse (s : string) : option datetime :=
  match list_ascii_of_string s with
  | y1 :: y2 :: y3 :: y4 :: "-"%char :: m1 :: m2 :: "-"%char :: d1 :: d2 :: _
      :: h1 :: h2 :: ":"%char :: n1 :: n2 :: ":"%char :: s1 :: s2 :: rest =>
      y ← number 0 [y1; y2; y3; y4];
      mo ← number 0 [m1; m2];
      d ← number 0 [d1; d2];
      h ← number 0 [h1; h2];
      mi ← number 0 [n1; n2];
      sec ← number 0 [s1; s2];
      us ← match rest with
           | [] => Some 0%Z
           | ["."%char; f1; f2; f3; f4; f5; f6] => number 0 [f1; f2; f3; f4; f5; f6]
           | _ => None
           end;
      Naive <$> to_us y mo d h mi sec us
  | _ => None
  end.

End Iso.

#[global] Instance iso_parse : IsoFormat := Iso.parse.

(** ** Analytics *)

(** [for x in l if p(x)], where the test may raise: the elements are
    tested in order and the first exception ends the comprehension. *)
Fixpoint comprehension {A : Type} (p : A -> result bool) (l : list A)
  : result (list A) :=
  match l with
  | [] => Ok []
  | x :: l =>
      b ← p x;
      rest ← comprehension p l;
      Ok (if b : bool then x :: rest else rest)
  end.

(** The dictionary built by [get_dashboard_summary]. *)
Record dashboard : Type := {
  overall : gmap string value;
  last_hour : gmap string value;
  status : string;
  dashboard_timestamp : string
}.

(** [stats["total_events"] == 0] *)
Definition value_eq_int (v : value) (n : Z) : bool :=
  match v with
  | VInt m => (m =? n)%Z
  | VFloat x => (x =? Py.float_of_small n)%float
  | _ => false
  end.

(** [v > n] for a small [int] [n]; only numbers are ordered. *)
Definition value_gt_int (v : value) (n : Z) : result bool :=
  match v with
  | VInt m => Ok (n <? m)%Z
  | VFloat x => Ok (Py.float_of_small n <? x)%float
  | _ => Raise TypeError
  end.

Section Analytics.

Context `{!IsoFormat}.

(** [datetime.fromisoformat(e["timestamp"]) > one_hour_ago]: the
    string must parse, and a naive datetime is not comparable with an
    aware one. *)
Definition in_last_hour (one_hour_ago : Z) (e : event) : result bool :=
  match fromisoformat (timestamp e) with
  | None => Raise ValueError
  | Some (Aware _) => Raise TypeError
  | Some (Naive t) => Ok (one_hour_ago <? t)%Z
  end.

(** [AnalyticsService.get_hourly_summary]; [now] is the reading of
    [datetime.utcnow()], a present-day instant, so that subtracting the
    hour stays within the range of [datetime]. *)
Definition get_hourly_summary (detection_service : DetectionService) (now : Z)
  : result (gmap string value) :=
  let events := events_cache detection_service in
  let one_hour_ago := (now - one_hour)%Z in
  recent ← comprehension (in_last_hour one_hour_ago) events;
  match recent with
  | [] => Ok {[ "events_count" := VInt 0; "period" := VStr "last_hour" ]}
  | _ =>
      let drowsy_count := count_drowsy recent in
      avg_ear ← Py.float_truediv_int
                  (Py.sum_float (map ear_value recent)) (Z.of_nat (length recent));
      average_ear ← Py.round avg_ear 3;
      alert_rate ←
        match recent with
        | [] => Ok (VInt 0)
        | _ => ratio ← Py.int_truediv drowsy_count (Z.of_nat (length recent));
               rate ← Py.round (ratio * 100)%float 2;
               Ok (VFloat rate)
        end;
      Ok {[ "period" := VStr "last_hour";
            "events_count" := VInt (Z.of_nat (length recent));
            "drowsy_count" := VInt drowsy_count;
            "average_ear" := VFloat average_ear;
            "alert_rate" := alert_rate ]}
  end.

(** [AnalyticsService._get_system_status] *)
Definition _get_system_status (stats : gmap string value) : result string :=
  match stats !! "total_events" with
  | None => Raise KeyError
  | Some total_events =>
      if value_eq_int total_events 0 then Ok "idle"
      else
        let drowsiness_rate := default (VInt 0) (stats !! "drowsiness_rate") in
        critical ← value_gt_int drowsiness_rate 50;
        if critical : bool then Ok "critical"
        else
          warning ← value_gt_int drowsiness_rate 25;
          if warning : bool then Ok "warning" else Ok "normal"
  end.

(** [AnalyticsService.get_dashboard_summary]; [now] is the clock read
    by the hourly summary and [utcnow] the later reading formatted
    into the result. *)
Definition get_dashboard_summary (detection_service : DetectionService)
    (now : Z) (utcnow : string) : result dashboard :=
  stats ← get_statistics detection_service;
  hourly ← get_hourly_summary detection_service now;
  status ← _get_system_status stats;
  Ok {| overall := stats;
        last_hour := hourly;
        status := status;
        dashboard_timestamp := utcnow |}.

End Analytics.

(** ** Driving the service *)

(** One call of [process_detection_event], as the boundary layer makes
    it: the four arguments and the clock reading. *)
Record request : Type := {
  req_ear_value : float;
  req_is_drowsy : bool;
  req_duration_ms : Z;
  req_timestamp : option string;
  req_utcnow : string
}.

Definition call (self : DetectionService) (r : request) : event * DetectionService :=
  process_detection_event self (req_ear_value r) (req_is_drowsy r)
    (req_duration_ms r) (req_timestamp r) (req_utcnow r).

(** The service after a call, and after a sequence of calls. *)
Definition record (self : DetectionService) (r : request) : DetectionService :=
  snd (call self r).

Definition record_all (self : DetectionService) (rs : list request) : DetectionService :=
  fold_left record rs self.

(** The event a call returns; it does not depend on the service. *)
Definition event_of (r : request) : event := fst (call init r).

(** The scenario of the specification: three events, one second
    apart, stamped by the service clock. *)
Definition scenario_requests : list request :=
  [ {| req_ear_value := 0.3; req_is_drowsy := false; req_duration_ms := 100;
       req_timestamp := None; req_utcnow := "2025-12-27T12:00:00" |};
    {| req_ear_value := 0.1; req_is_drowsy := true; req_duration_ms := 1500;
       req_timestamp := None; req_utcnow := "2025-12-27T12:00:01" |};
    {| req_ear_value := 0.1; req_is_drowsy := true; req_duration_ms := 6000;
       req_timestamp := None; req_utcnow := "2025-12-27T12:00:02" |} ].

Definition scenario : DetectionService := record_all init scenario_requests.

(** The example of the request schema in [src/api/models/models.py]:
    its timestamp ends in "Z". *)
Definition documented_example : request :=
  {| req_ear_value := 0.15; req_is_drowsy := true; req_duration_ms := 3500;
     req_timestamp := Some "2025-12-27T12:00:00.000Z";
     req_utcnow := "2025-12-27T12:00:05" |}.

(** What the scenario is expected to yield: its statistics, and its
    hourly summary while the three events are within the hour. *)
Definition scenario_statistics : gmap string value :=
  {[ "total_events" := VInt 3;
     "drowsy_events" := VInt 2;
     "average_ear" := VFloat 0.167;
     "average_duration_ms" := VFloat 2533.33;
     "severity_distribution" := VDict {[ "none" := 1%Z; "low" := 1%Z; "high" := 1%Z ]};
     "drowsiness_rate" := VFloat 66.67 ]}.

Definition scenario_summary : gmap string value :=
  {[ "period" := VStr "last_hour";
     "events_count" := VInt 3;
     "drowsy_count" := VInt 2;
     "average_ear" := VFloat 0.167;
     "alert_rate" := VFloat 66.67 ]}.

(** A cache of 160 events, 23 of them drowsy: the percentage, 14.375,
    is half-way between two numbers of two decimals. *)
Definition tie_requests : list request :=
  replicate 23 {| req_ear_value := 0.1; req_is_drowsy := true;
                  req_duration_ms := 1500; req_timestamp := None;
                  req_utcnow := "2025-12-27T12:00:00" |}
  ++ replicate 137 {| req_ear_value := 0.3; req_is_drowsy := false;
                      req_duration_ms := 100; req_timestamp := None;
                      req_utcnow := "2025-12-27T12:00:01" |}.

Definition tie : DetectionService := record_all init tie_requests.

(** A single event that lasted 10^400 milliseconds. *)
Definition overlong : DetectionService :=
  record init {| req_ear_value := 0.15; req_is_drowsy := true;
                 req_duration_ms := 10 ^ 400; req_timestamp := None;
                 req_utcnow := "2025-12-27T12:00:05" |}.

(** The clock reading written as an ISO string. *)
Definition instant (s : string) : Z :=
  match Iso.parse s with
  | Some (Naive t) => t
  | _ => 0%Z
  end.

(** ** The aggregates, in the specification's words *)

(** The events flagged drowsy. *)
Definition drowsy (events : list event) : list event :=
  filter (fun e => is_drowsy e = true) events.

(** The mean of [ear_value]: the running [float] sum over the count. *)
Definition mean_ear_value (events : list event) : float :=
  (Py.sum_float (map ear_value events)
   / Py.float_of_small (Z.of_nat (length events)))%float.

(** The mean of [duration_ms]: the exact [int] sum over the count,
    rounded once to a [float]; [OverflowError] when it is out of the
    range of [float]. *)
Definition mean_duration_ms (events : list event) : result float :=
  Py.int_truediv (Py.sum_int (map duration_ms events)) (Z.of_nat (length events)).

(** [part] out of [whole], in percent: the binary64 quotient, times
    100. *)
Definition percentage (part whole : nat) : float :=
  (Py.float_of_small (Z.of_nat part) / Py.float_of_small (Z.of_nat whole) * 100)%float.

(** The percentage in the order the specification writes it,
    [100 * part / whole]: one true division of two [int]s. *)
Definition percentage_as_specified (part whole : nat) : result float :=
  Py.int_truediv (100 * Z.of_nat part) (Z.of_nat whole).

(** How many events carry the severity [label]. *)
Definition occurrences (label : string) (events : list event) : nat :=
  length (filter (fun e => severity e = label) events).

(** [h] is the histogram of the severities of [events]: every label
    that occurs is mapped to its number of occurrences, and no other
    label is a key. *)
Definition histogram_of (events : list event) (h : gmap string Z) : Prop :=
  forall label : string,
    h !! label = if decide (occurrences label events = 0) then None
                 else Some (Z.of_nat (occurrences label events)).

(** The trailing window, in the specification's words: the events
    whose timestamp reads as a naive datetime strictly later than one
    hour before [now], in cache order. *)
Definition naive_timestamp `{!IsoFormat} (e : event) : option Z :=
  match fromisoformat (timestamp e) with
  | Some (Naive t) => Some t
  | _ => None
  end.

Definition newer `{!IsoFormat} (t0 : Z) (e : event) : bool :=
  match naive_timestamp e with
  | Some t => (t0 <? t)%Z
  | None => false
  end.

Definition window `{!IsoFormat} (now : Z) (events : list event) : list event :=
  filter (fun e => newer (now - one_hour) e = true) events.

(** ** The request schema and the HTTP layer *)

(** The truth value of an optional string: [None] and the empty string
    are false. *)
Definition truthy (v : option string) : bool :=
  match v with
  | None => false
  | Some s => negb (String.eqb s "")
  end.

(** The validator [DetectionEvent.set_timestamp] of
    [src/api/models/models.py], [v or datetime.utcnow().isoformat()]. *)
Definition set_timestamp (v : option string) (utcnow : string) : option string :=
  if truthy v then v else Some utcnow.

Module Main.

(** A validated [DetectionEvent] as the route functions receive it. *)
Record DetectionEvent : Type := {
  event_timestamp : option string;
  event_ear_value : float;
  event_is_drowsy : bool;
  event_duration_ms : Z
}.

(** The dictionary a telemetry route gets back from the service. *)
Abbreviation processed := event (only parsing).

(** What a route answers: the body of a 200, or the 500 of the
    [HTTPException] raised in its [except] branch. *)
Inductive response (A : Type) : Type :=
| Http200 (body : A)
| Http500.

Arguments Http200 {A} body.
Arguments Http500 {A}.

Record DetectionResponse : Type := {
  response_status : string;
  event_id : string;
  response_timestamp : string;
  response_severity : string
}.

(** The call of [process_detection_event] both telemetry routes make;
    [utcnow] is the service clock at that call.  It returns the
    dictionary of the processed event, of type [event]. *)
Definition process (detection_service : DetectionService) (event : DetectionEvent)
    (utcnow : string) : processed * DetectionService :=
  process_detection_event detection_service (event_ear_value event)
    (event_is_drowsy event) (event_duration_ms event) (event_timestamp event) utcnow.

(** [log_detection_event], the route [POST /telemetry].  [run] is the
    outcome of [mlflow_service.log_detection_event], the identifier of
    the run or the exception of the tracking backend. *)
Definition log_detection_event (detection_service : DetectionService)
    (event : DetectionEvent) (utcnow : string) (run : result string)
  : response DetectionResponse * DetectionService :=
  let '(processed_event, detection_service) := process detection_service event utcnow in
  match run with
  | Ok run_id =>
      (Http200 {| response_status := "logged";
                  event_id := run_id;
                  response_timestamp := timestamp processed_event;
                  response_severity := severity processed_event |},
       detection_service)
  | Raise _ => (Http500, detection_service)
  end.

Record BatchResponse : Type := {
  batch_status : string;
  events_logged : Z;
  batch_timestamp : string
}.

(** The loop of [log_batch_events]: each event comes with the clock
    reading at its turn; the results are collected in order. *)
Fixpoint process_all (detection_service : DetectionService)
    (events : list (DetectionEvent * string)) : list event * DetectionService :=
  match events with
  | [] => ([], detection_service)
  | (event, utcnow) :: events =>
      let '(processed, detection_service) := process detection_service event utcnow in
      let '(results, detection_service) := process_all detection_service events in
      (processed :: results, detection_service)
  end.

(** [log_batch_events], the route [POST /telemetry/batch]. *)
Definition log_batch_events (detection_service : DetectionService)
    (events : list (DetectionEvent * string)) (utcnow : string)
  : response BatchResponse * DetectionService :=
  let '(results, detection_service) := process_all detection_service events in
  (Http200 {| batch_status := "success";
              events_logged := Z.of_nat (length results);
              batch_timestamp := utcnow |},
   detection_service).

(** The fields of [StatisticsResponse]; all six are required. *)
Record StatisticsResponse : Type := {
  total_events : Z;
  drowsy_events : Z;
  average_ear : float;
  average_duration_ms : float;
  drowsiness_rate : float;
  severity_distribution : gmap string Z
}.

(** Reading a required field of a given type out of the keyword
    arguments: a missing key is a validation error, and so is a value
    of another kind, except that an [int] is taken as a [float].  (The
    further conversions the validation library would try on other
    kinds are not modelled; the statistics never store such values.) *)
Definition int_field (stats : gmap string value) (key : string) : result Z :=
  match stats !! key with
  | Some (VInt n) => Ok n
  | _ => Raise ValueError
  end.

Definition float_field (stats : gmap string value) (key : string) : result float :=
  match stats !! key with
  | Some (VFloat x) => Ok x
  | Some (VInt n) => Py.float_of_int n
  | _ => Raise ValueError
  end.

Definition dict_field (stats : gmap string value) (key : string)
  : result (gmap string Z) :=
  match stats !! key with
  | Some (VDict d) => Ok d
  | _ => Raise ValueError
  end.

(** [StatisticsResponse], built from the dictionary unpacked into
    keyword arguments; keys that are no field are ignored. *)
Definition new_StatisticsResponse (stats : gmap string value)
  : result StatisticsResponse :=
  total_events ← int_field stats "total_events";
  drowsy_events ← int_field stats "drowsy_events";
  average_ear ← float_field stats "average_ear";
  average_duration_ms ← float_field stats "average_duration_ms";
  drowsiness_rate ← float_field stats "drowsiness_rate";
  severity_distribution ← dict_field stats "severity_distribution";
  Ok {| total_events := total_events;
        drowsy_events := drowsy_events;
        average_ear := average_ear;
        average_duration_ms := average_duration_ms;
        drowsiness_rate := drowsiness_rate;
        severity_distribution := severity_distribution |}.

(** Every route wraps its body in [try] and answers 500 on any
    exception. *)
Definition answer {A : Type} (r : result A) : response A :=
  match r with
  | Ok body => Http200 body
  | Raise _ => Http500
  end.

(** [get_statistics], the route [GET /statistics]. *)
Definition get_statistics (detection_service : DetectionService)
  : response StatisticsResponse :=
  answer (stats ← get_statistics detection_service; new_StatisticsResponse stats).

Section Routes.

Context `{!IsoFormat}.

(** [get_dashboard], the route [GET /dashboard]; the four entries of
    the summary always fit [DashboardSummary]. *)
Definition get_dashboard (detection_service : DetectionService) (now : Z)
    (utcnow : string) : response dashboard :=
  answer (get_dashboard_summary detection_service now utcnow).

End Routes.

Record RecentResponse : Type := {
  events : list event;
  count : Z;
  recent_timestamp : string
}.

(** [get_recent_events], the route [GET /events/recent]. *)
Definition get_recent_events (detection_service : DetectionService) (limit : Z)
    (utcnow : string) : response RecentResponse :=
  let events := get_recent_events detection_service limit in
  Http200 {| events := events;
             count := Z.of_nat (length events);
             recent_timestamp := utcnow |}.

Record ClearResponse : Type := {
  clear_status : string;
  events_cleared : Z;
  clear_timestamp : string
}.

(** [clear_event_cache], the route [DELETE /events/cache]. *)
Definition clear_event_cache (detection_service : DetectionService)
    (utcnow : string) : response ClearResponse * DetectionService :=
  let '(count, detection_service) := clear_cache detection_service in
  (Http200 {| clear_status := "cleared";
              events_cleared := count;
              clear_timestamp := utcnow |},
   detection_service).

End Main.

(** The arguments a telemetry route passes on for an event. *)
Definition request_of (e : Main.DetectionEvent * string) : request :=
  {| req_ear_value := Main.event_ear_value (fst e);
     req_is_drowsy := Main.event_is_drowsy (fst e);
     req_duration_ms := Main.event_duration_ms (fst e);
     req_timestamp := Main.event_timestamp (fst e);
     req_utcnow := snd e |}.

(** The sum of the counts of a histogram. *)
Definition histogram_total (h : gmap string Z) : Z :=
  map_fold (fun _ n total => (n + total)%Z) 0%Z h.

(** * Properties *)

(** ** The severity classifier *)

(** C2.  The classifier answers "none" exactly when the ratio exceeds
    0.25, whatever the duration; otherwise the duration alone decides:
    "low" below 2000, "medium" from 2000 and below 5000, "high" from
    5000 on.  It answers "critical" for no input. *)
Theorem calculate_severity_policy (ear_value : float) (duration_ms : Z) :
  ((0.25 <? ear_value)%float = true ->
     _calculate_severity ear_value duration_ms = "none")
  /\ ((0.25 <? ear_value)%float = false ->
        (_calculate_severity ear_value duration_ms = "low"
           <-> (duration_ms < 2000)%Z)
        /\ (_calculate_severity ear_value duration_ms = "medium"
              <-> (2000 <= duration_ms < 5000)%Z)
        /\ (_calculate_severity ear_value duration_ms = "high"
              <-> (5000 <= duration_ms)%Z))
  /\ _calculate_severity ear_value duration_ms <> "critical".
Proof.
  unfold _calculate_severity.
  destruct (0.25 <? ear_value)%float;
    [|destruct (Z.ltb_spec duration_ms 2000);
      [|destruct (Z.ltb_spec duration_ms 5000)]].
  all: repeat split; intros; try discriminate; try lia; try reflexivity.
Qed.

(** The four labels are the only answers. *)
Lemma calculate_severity_range (ear_value : float) (duration_ms : Z) :
  _calculate_severity ear_value duration_ms ∈ ["none"; "low"; "medium"; "high"].
Proof.
  unfold _calculate_severity.
  repeat case_match; set_solver.
Qed.

(** ** The event cache *)

Lemma call_event (self : DetectionService) (r : request) :
  fst (call self r) = event_of r.
Proof. reflexivity. Qed.

Lemma record_max_cache_size (self : DetectionService) (r : request) :
  max_cache_size (record self r) = max_cache_size self.
Proof. reflexivity. Qed.

Lemma record_events_cache (self : DetectionService) (r : request) :
  events_cache (record self r) =
    let cache := events_cache self ++ [event_of r] in
    if (max_cache_size self <? Z.of_nat (length cache))%Z then tail cache else cache.
Proof. reflexivity. Qed.

Lemma record_all_max_cache_size (rs : list request) (self : DetectionService) :
  max_cache_size (record_all self rs) = max_cache_size self.
Proof.
  revert self. induction rs as [|r rs IH]; intros self; [reflexivity|].
  change (record_all self (r :: rs)) with (record_all (record self r) rs).
  by rewrite IH.
Qed.

Lemma record_all_snoc (self : DetectionService) (rs : list request) (r : request) :
  record_all self (rs ++ [r]) = record (record_all self rs) r.
Proof. unfold record_all. by rewrite fold_left_app. Qed.

Lemma tail_drop {A : Type} (k : nat) (l : list A) :
  tail (drop k l) = drop (S k) l.
Proof.
  revert l. induction k as [|k IH]; intros [|x l]; try reflexivity.
  cbn [drop]. rewrite IH. by destruct l.
Qed.

(** The cache of a fresh service after any calls: the last 1000 events
    returned, oldest first. *)
Lemma record_all_events_cache (rs : list request) :
  events_cache (record_all init rs) = drop (length rs - 1000) (event_of <$> rs).
Proof.
  induction rs as [|r rs IH] using rev_ind; [reflexivity|].
  rewrite record_all_snoc, record_events_cache, record_all_max_cache_size, IH.
  cbn zeta. rewrite fmap_app, !length_app, length_drop, length_fmap. cbn [length fmap list_fmap].
  change (max_cache_size init) with 1000%Z.
  destruct (Z.ltb_spec 1000 (Z.of_nat (length rs - (length rs - 1000) + 1))) as [Hlt|Hge].
  - assert (Hn : 1000 <= length rs) by lia.
    rewrite <- drop_app_le by (rewrite length_fmap; lia).
    replace (length rs + 1 - 1000) with (S (length rs - 1000)) by lia.
    apply tail_drop.
  - replace (length rs - 1000) with 0 by lia.
    replace (length rs + 1 - 1000) with 0 by lia. reflexivity.
Qed.

(** C1.  Starting from the empty cache, after any sequence of calls the
    cache holds at most 1000 events, and they are the most recent 1000
    (all of them when fewer were recorded) in arrival order: each
    overflow evicted the oldest. *)
Theorem cache_bounded_fifo (rs : list request) :
  length (events_cache (record_all init rs)) <= 1000
  /\ events_cache (record_all init rs) = drop (length rs - 1000) (event_of <$> rs)
  /\ (1000 < length rs ->
        length (events_cache (record_all init rs)) = 1000).
Proof.
  rewrite record_all_events_cache, length_drop, length_fmap.
  repeat split; lia.
Qed.

(** C9.  [clear_cache] returns the number of cached events and leaves
    the cache empty; called again at once it returns 0 and the cache
    stays empty. *)
Theorem clear_cache_idempotent (self : DetectionService) :
  fst (clear_cache self) = Z.of_nat (length (events_cache self))
  /\ events_cache (snd (clear_cache self)) = []
  /\ fst (clear_cache (snd (clear_cache self))) = 0%Z
  /\ snd (clear_cache (snd (clear_cache self))) = snd (clear_cache self).
Proof. repeat split. Qed.

(** *** Recent events *)

(** For a positive limit the slice is the tail of the cache: its last
    [limit] events in arrival order, all of them when the cache holds
    fewer. *)
Lemma get_recent_events_positive (self : DetectionService) (limit : Z) :
  (0 < limit)%Z ->
  get_recent_events self limit
    = drop (length (events_cache self) - Z.to_nat limit) (events_cache self)
  /\ (Z.of_nat (length (get_recent_events self limit)) <= limit)%Z.
Proof.
  intros Hpos. unfold get_recent_events, slice_from.
  destruct (events_cache self) as [|e cache] eqn:Hcache.
  - split; [by rewrite drop_nil | cbn; lia].
  - rewrite <- Hcache. clear Hcache.
    destruct (Z.ltb_spec (- limit) 0) as [_|]; [|lia].
    assert (Z.to_nat (Z.max (- limit + Z.of_nat (length (events_cache self))) 0)
            = length (events_cache self) - Z.to_nat limit) as -> by lia.
    split; [reflexivity|]. rewrite length_drop. lia.
Qed.

(** C8.  With limit zero the slice [events_cache[-0:]] starts at index
    0: the whole cache is returned, not the empty sequence. *)
Theorem get_recent_events_zero (self : DetectionService) :
  get_recent_events self 0 = events_cache self.
Proof.
  unfold get_recent_events, slice_from.
  destruct (events_cache self) as [|e cache]; reflexivity.
Qed.

(** One cached event, limit zero: one event comes back. *)
Example get_recent_events_zero_one_event :
  let self := record init {| req_ear_value := 0.5; req_is_drowsy := false;
                             req_duration_ms := 100; req_timestamp := None;
                             req_utcnow := "2025-12-27T12:00:00" |} in
  length (get_recent_events self 0) = 1.
Proof. reflexivity. Qed.

(** ** Statistics of the empty cache *)

(** C3.  On an empty cache [get_statistics] returns five keys: the two
    counts 0, "average_ear" 0.0, "average_duration" 0.0 and the empty
    histogram.  It has no "average_duration_ms" and no
    "drowsiness_rate", the keys of the non-empty branch. *)
Theorem get_statistics_empty (max_cache_size : Z) :
  let self := {| events_cache := []; max_cache_size := max_cache_size |} in
  get_statistics self
    = Ok {[ "total_events" := VInt 0;
            "drowsy_events" := VInt 0;
            "average_ear" := VFloat 0;
            "average_duration" := VFloat 0;
            "severity_distribution" := VDict ∅ ]}
  /\ (forall stats, get_statistics self = Ok stats ->
        stats !! "average_duration_ms" = None
        /\ stats !! "drowsiness_rate" = None
        /\ stats !! "average_duration" = Some (VFloat 0)).
Proof.
  split; [reflexivity|].
  intros stats [= <-]. repeat split.
Qed.

(** ** Python arithmetic that cannot fail *)

Section RoundTotal.

Local Open Scope Z_scope.

Lemma digits2_pos_lt (p : positive) : Zpos p < 2 ^ Zpos (digits2_pos p).
Proof.
  induction p as [p IH|p IH|]; cbn [digits2_pos]; [| |reflexivity].
  all: rewrite Pos2Z.inj_succ, Z.pow_succ_r by lia; lia.
Qed.

Lemma Zdigits2_le (m j : Z) : 0 <= j -> 0 <= m < 2 ^ j -> Zdigits2 m <= j.
Proof.
  intros Hj [Hm Hlt]. destruct m as [|p|p]; [done| |lia].
  clear Hm. cbn [Zdigits2]. revert j Hj Hlt.
  induction p as [p IH|p IH|]; intros j Hj Hlt; cbn [digits2_pos].
  - rewrite Pos2Z.inj_succ. assert (0 < j) by (destruct (decide (j = 0)); [subst; cbn in Hlt|]; lia).
    specialize (IH (j - 1) ltac:(lia)).
    replace j with (Z.succ (j - 1)) in Hlt by lia. rewrite Z.pow_succ_r in Hlt by lia. lia.
  - rewrite Pos2Z.inj_succ. assert (0 < j) by (destruct (decide (j = 0)); [subst; cbn in Hlt|]; lia).
    specialize (IH (j - 1) ltac:(lia)).
    replace j with (Z.succ (j - 1)) in Hlt by lia. rewrite Z.pow_succ_r in Hlt by lia. lia.
  - destruct (decide (j = 0)); [subst; cbn in Hlt|]; lia.
Qed.

Lemma shr_1_m (mrs : shr_record) :
  0 <= shr_m mrs -> 0 <= shr_m (shr_1 mrs) <= shr_m mrs.
Proof.
  destruct mrs as [m r s]. cbn [shr_m]. intros Hm.
  destruct m as [|[p|p|]|p]; cbn; lia.
Qed.

Lemma iter_shr_1_m (p : positive) (mrs : shr_record) :
  0 <= shr_m mrs -> 0 <= shr_m (SpecFloat.iter_pos shr_1 p mrs) <= shr_m mrs.
Proof.
  revert mrs. induction p as [p IH|p IH|]; intros mrs Hm; cbn [SpecFloat.iter_pos].
  - pose proof (shr_1_m mrs Hm) as [H1 H2].
    pose proof (IH _ H1) as [H3 H4]. pose proof (IH _ H3). lia.
  - pose proof (IH _ Hm) as [H3 H4]. pose proof (IH _ H3). lia.
  - by apply shr_1_m.
Qed.

Lemma shr_record_of_loc_m (m : Z) (l : location) : shr_m (shr_record_of_loc m l) = m.
Proof. by destruct l as [|[]]. Qed.

Lemma shr_fexp_bounds (m e : Z) (l : location) :
  0 <= m ->
  0 <= shr_m (fst (shr_fexp prec emax m e l)) <= m
  /\ snd (shr_fexp prec emax m e l) = Z.max e (fexp prec emax (Zdigits2 m + e)).
Proof.
  intros Hm. unfold shr_fexp, shr.
  destruct (fexp prec emax (Zdigits2 m + e) - e) as [|p|p] eqn:Hn; cbn [fst snd].
  - rewrite shr_record_of_loc_m. lia.
  - split; [|lia]. rewrite <- (shr_record_of_loc_m m l) at 3.
    apply iter_shr_1_m. by rewrite shr_record_of_loc_m.
  - rewrite shr_record_of_loc_m. lia.
Qed.

Lemma round_nearest_even_bounds (m : Z) (l : location) :
  m <= round_nearest_even m l <= m + 1.
Proof. destruct l as [|[]]; cbn; try destruct (Z.even m); lia. Qed.

Lemma fexp_le (z : Z) : fexp prec emax z <= Z.max (z - 53) 0.
Proof. unfold fexp, SpecFloat.emin, prec, emax. lia. Qed.

(** Rounding a mantissa below [2^j] at exponent [e <= 0] cannot leave
    the binary64 range while [j] stays moderate. *)
Lemma binary_round_aux_finite (s : bool) (q e : Z) (l : location) (j : Z) :
  0 <= q < 2 ^ j -> 0 <= j <= 500 -> e <= 0 ->
  exists x, Py.finite_or_overflow (binary_round_aux prec emax s q e l) = Ok x.
Proof.
  intros [Hq Hlt] Hj He. unfold binary_round_aux.
  pose proof (shr_fexp_bounds q e l Hq) as [Hm1 He1].
  destruct (shr_fexp prec emax q e l) as [mrs1 e1]. cbn [fst snd] in Hm1, He1.
  pose proof (round_nearest_even_bounds (shr_m mrs1) (loc_of_shr_record mrs1)) as Hr.
  set (m2 := round_nearest_even (shr_m mrs1) (loc_of_shr_record mrs1)) in *.
  pose proof (shr_fexp_bounds m2 e1 loc_Exact ltac:(lia)) as [Hm3 He3].
  destruct (shr_fexp prec emax m2 e1 loc_Exact) as [mrs3 e3]. cbn [fst snd] in Hm3, He3.
  assert (Zdigits2 q <= j) by (apply Zdigits2_le; lia).
  assert (0 <= Zdigits2 q) by (destruct q; cbn; lia).
  assert (Zdigits2 m2 <= j + 1).
  { apply Zdigits2_le; [lia|]. split; [lia|].
    rewrite Z.pow_add_r, Z.pow_1_r by lia. lia. }
  assert (0 <= Zdigits2 m2) by (destruct m2; cbn; lia).
  pose proof (fexp_le (Zdigits2 q + e)). pose proof (fexp_le (Zdigits2 m2 + e1)).
  assert (e3 <= 971) by lia.
  destruct (shr_m mrs3) as [|p|p]; cbn; eauto.
  destruct (Z.leb_spec e3 (emax - prec)) as [|Hgt]; cbn; eauto.
  unfold emax, prec in Hgt. lia.
Qed.

Lemma div_nearest_finite (s : bool) (a b : positive) :
  Zpos a <= 2 ^ 54 * Zpos b -> Z.log2 (Zpos b) <= 300 ->
  exists x, Py.finite_or_overflow (Py.div_nearest s a b) = Ok x.
Proof.
  intros Hab Hb. unfold Py.div_nearest.
  set (k := Z.max 0 (Z.log2 (Z.pos b) + 55 - Z.log2 (Z.pos a))).
  assert (0 <= Z.log2 (Zpos a)) by apply Z.log2_nonneg.
  assert (0 <= Z.log2 (Zpos b)) by apply Z.log2_nonneg.
  assert (Hk : 0 <= k <= 355) by lia.
  apply (binary_round_aux_finite _ _ _ _ (55 + k)); [|lia|lia].
  rewrite Z.shiftl_mul_pow2 by lia.
  assert (0 < 2 ^ k) by (apply Z.pow_pos_nonneg; lia).
  split; [apply Z.div_pos; lia|].
  apply Z.div_lt_upper_bound; [lia|].
  rewrite Z.pow_add_r by lia.
  change (2 ^ 55) with (2 * 2 ^ 54). nia.
Qed.

Lemma round_half_even_le (num den : Z) :
  0 <= num -> 0 < den -> 0 <= Py.round_half_even num den <= num + 1.
Proof.
  intros Hnum Hden. unfold Py.round_half_even.
  assert (0 <= num / den) by (apply Z.div_pos; lia).
  assert (num / den <= num) by (apply Z.div_le_upper_bound; nia).
  repeat case_match; lia.
Qed.

Lemma valid_mantissa_lt (m : positive) (e : Z) :
  bounded prec emax m e = true -> Zpos m < 2 ^ 53.
Proof.
  unfold bounded, canonical_mantissa, fexp, SpecFloat.emin, prec, emax.
  intros [Hc _]%andb_prop. apply Z.eqb_eq in Hc.
  pose proof (digits2_pos_lt m).
  assert (2 ^ Zpos (digits2_pos m) <= 2 ^ 53) by (apply Z.pow_le_mono_r; lia).
  lia.
Qed.

(** [round] to a non-negative number of decimals never raises. *)
Lemma round_total (x : float) (ndigits : Z) :
  0 <= ndigits <= 90 -> exists r, Py.round x ndigits = Ok r.
Proof.
  intros Hnd. unfold Py.round.
  pose proof (Prim2SF_valid x) as Hvalid.
  destruct (Prim2SF x) as [| | |s m e]; eauto.
  cbn [SpecFloat.valid_binary] in Hvalid. apply valid_mantissa_lt in Hvalid.
  destruct (Z.ltb_spec 323 ndigits); [lia|].
  destruct (Z.ltb_spec ndigits (-308)); [lia|].
  destruct (Z.leb_spec 0 e) as [|He]; destruct (Z.leb_spec 0 ndigits); try lia; cbn [andb]; eauto.
  rewrite (Z.max_l ndigits 0), (Z.max_r (- ndigits) 0) by lia.
  rewrite (Z.max_r e 0), (Z.max_l (- e) 0) by lia.
  rewrite !Z.pow_0_r, !Z.mul_1_r.
  assert (Hb : 0 < 10 ^ ndigits) by (apply Z.pow_pos_nonneg; lia).
  assert (Hb' : 10 ^ ndigits < 2 ^ 300).
  { apply Z.le_lt_trans with (10 ^ 90); [apply Z.pow_le_mono_r; lia | reflexivity]. }
  assert (Hd : 0 < 2 ^ (- e)) by (apply Z.pow_pos_nonneg; lia).
  pose proof (round_half_even_le (Zpos m * 10 ^ ndigits) (2 ^ (- e)) ltac:(lia) Hd) as Hn.
  destruct (10 ^ ndigits) as [|b|b] eqn:Eb; try lia.
  destruct (Py.round_half_even _ _) as [|a|a]; eauto.
  apply div_nearest_finite.
  - change (2 ^ 54) with (2 * 2 ^ 53). nia.
  - apply Z.lt_le_incl, Z.log2_lt_pow2; lia.
Qed.

End RoundTotal.

Lemma small_of_nat (n : nat) : n <= 1000 -> Py.small (Z.of_nat n) = true.
Proof. intros Hn. unfold Py.small. apply Z.ltb_lt. lia. Qed.

Lemma float_truediv_int_small (x : float) (n : Z) :
  Py.small n = true -> n <> 0%Z ->
  Py.float_truediv_int x n = Ok (x / Py.float_of_small n)%float.
Proof.
  intros Hs Hn. unfold Py.float_truediv_int, Py.float_of_int. rewrite Hs. cbn.
  by destruct (Z.eqb_spec n 0).
Qed.

Lemma int_truediv_small (a b : Z) :
  Py.small a = true -> Py.small b = true -> b <> 0%Z ->
  Py.int_truediv a b = Ok (Py.float_of_small a / Py.float_of_small b)%float.
Proof.
  intros Ha Hb Hn. unfold Py.int_truediv. rewrite Ha, Hb.
  by destruct (Z.eqb_spec b 0).
Qed.

(** The percentage is a binary64 product: 23 out of 160 is 14.375,
    the computed product lies just below that, and it rounds to
    14.37. *)
Example percentage_at_a_tie : Py.round (percentage 23 160) 2 = Ok 14.37%float.
Proof. vm_compute. reflexivity. Qed.

(** ** Counting *)

Lemma sum_int_ones {A : Type} (l : list A) :
  Py.sum_int (map (fun _ => 1%Z) l) = Z.of_nat (length l).
Proof.
  unfold Py.sum_int.
  enough (forall acc, fold_left Z.add (map (fun _ => 1%Z) l) acc
                      = (acc + Z.of_nat (length l))%Z) as -> by reflexivity.
  induction l as [|x l IH]; intros acc; cbn [map fold_left length]; [lia|].
  rewrite IH. lia.
Qed.

Lemma count_drowsy_length (events : list event) :
  count_drowsy events = Z.of_nat (length (drowsy events)).
Proof. apply sum_int_ones. Qed.

Lemma drowsy_length_le (events : list event) :
  length (drowsy events) <= length events.
Proof. apply length_filter. Qed.

Lemma occurrences_snoc (label : string) (events : list event) (e : event) :
  occurrences label (events ++ [e])
  = occurrences label events + (if decide (severity e = label) then 1 else 0).
Proof.
  unfold occurrences. rewrite filter_app, length_app. f_equal.
  rewrite filter_cons, filter_nil. by case_decide.
Qed.

(** The counting loop builds the histogram of the severities. *)
Lemma severity_counts_histogram (events : list event) :
  histogram_of events (severity_counts events).
Proof.
  unfold histogram_of, severity_counts.
  induction events as [|e events IH] using rev_ind; intros label.
  - apply lookup_empty.
  - rewrite fold_left_app, occurrences_snoc. cbn [fold_left].
    destruct (decide (severity e = label)) as [->|Hne].
    + rewrite lookup_insert_eq, IH.
      repeat case_decide; cbn; try lia; f_equal; lia.
    + rewrite lookup_insert_ne, IH by done.
      rewrite Nat.add_0_r. reflexivity.
Qed.

Lemma bind_Ok {A B : Type} (a : A) (k : A -> result B) : (Ok a ≫= k) = k a.
Proof. reflexivity. Qed.

(** ** Statistics of a non-empty cache *)

(** C4, as amended.  On a non-empty cache within capacity whose mean
    duration is within the range of [float], [get_statistics] returns
    six keys: "total_events" is the number of events, "drowsy_events"
    the number flagged drowsy, "average_ear" the mean ratio rounded to
    3 decimals, "average_duration_ms" the mean duration rounded to 2
    decimals, "drowsiness_rate" the binary64 product
    [drowsy / total * 100] rounded to 2 decimals, and
    "severity_distribution" the histogram of the severities, with the
    observed labels only. *)
Theorem get_statistics_nonempty (self : DetectionService) (avg_duration : float) :
  let events := events_cache self in
  events <> [] ->
  length events <= 1000 ->
  mean_duration_ms events = Ok avg_duration ->
  exists average_ear average_duration_ms drowsiness_rate : float,
    Py.round (mean_ear_value events) 3 = Ok average_ear
    /\ Py.round avg_duration 2 = Ok average_duration_ms
    /\ Py.round (percentage (length (drowsy events)) (length events)) 2
       = Ok drowsiness_rate
    /\ get_statistics self
       = Ok {[ "total_events" := VInt (Z.of_nat (length events));
               "drowsy_events" := VInt (Z.of_nat (length (drowsy events)));
               "average_ear" := VFloat average_ear;
               "average_duration_ms" := VFloat average_duration_ms;
               "severity_distribution" := VDict (severity_counts events);
               "drowsiness_rate" := VFloat drowsiness_rate ]}
    /\ histogram_of events (severity_counts events).
Proof.
  intros events.
  assert (Hcache : events_cache self = events) by reflexivity. clearbody events.
  intros Hne Hlen Havg. unfold mean_duration_ms in Havg.
  destruct (round_total (mean_ear_value events) 3 ltac:(lia)) as [average_ear Hear].
  destruct (round_total avg_duration 2 ltac:(lia)) as [average_duration Hdur].
  destruct (round_total (percentage (length (drowsy events)) (length events)) 2 ltac:(lia))
    as [rate Hrate].
  exists average_ear, average_duration, rate.
  split; [done|]. split; [done|]. split; [done|].
  split; [|apply severity_counts_histogram].
  assert (Hn : Z.of_nat (length events) <> 0%Z) by (destruct events; [congruence | cbn [length]; lia]).
  pose proof (small_of_nat _ Hlen) as Hsmall.
  pose proof (drowsy_length_le events) as Hd.
  unfold get_statistics. rewrite Hcache.
  destruct events as [|e l] eqn:Hev; [congruence|]. rewrite <- Hev in *.
  rewrite float_truediv_int_small by done.
  rewrite bind_Ok, Havg, bind_Ok. fold (mean_ear_value events).
  rewrite Hear, bind_Ok, Hdur, bind_Ok.
  destruct (Z.ltb_spec 0 (Z.of_nat (length events))) as [_|]; [|lia].
  rewrite count_drowsy_length.
  rewrite int_truediv_small by (try apply small_of_nat; lia || done).
  rewrite bind_Ok. fold (percentage (length (drowsy events)) (length events)).
  rewrite Hrate. reflexivity.
Qed.

(** ** Reading a returned result backwards *)

(** Reading the steps of a computation that returned. *)
Lemma bind_Ok_inv {A B : Type} (r : result A) (k : A -> result B) (b : B) :
  r ≫= k = Ok b -> exists a, r = Ok a /\ k a = Ok b.
Proof. destruct r as [a|err]; [eauto | discriminate]. Qed.

Lemma get_statistics_inv (self : DetectionService) (stats : gmap string value) :
  let events := events_cache self in
  events <> [] ->
  get_statistics self = Ok stats ->
  exists avg_ear avg_duration ratio average_ear average_duration_ms drowsiness_rate : float,
    Py.float_truediv_int (Py.sum_float (map ear_value events))
      (Z.of_nat (length events)) = Ok avg_ear
    /\ Py.int_truediv (Py.sum_int (map duration_ms events))
         (Z.of_nat (length events)) = Ok avg_duration
    /\ Py.int_truediv (count_drowsy events) (Z.of_nat (length events)) = Ok ratio
    /\ Py.round avg_ear 3 = Ok average_ear
    /\ Py.round avg_duration 2 = Ok average_duration_ms
    /\ Py.round (ratio * 100) 2 = Ok drowsiness_rate
    /\ stats = {[ "total_events" := VInt (Z.of_nat (length events));
                  "drowsy_events" := VInt (count_drowsy events);
                  "average_ear" := VFloat average_ear;
                  "average_duration_ms" := VFloat average_duration_ms;
                  "severity_distribution" := VDict (severity_counts events);
                  "drowsiness_rate" := VFloat drowsiness_rate ]}.
Proof.
  intros events. assert (Hcache : events_cache self = events) by reflexivity.
  clearbody events. intros Hne. unfold get_statistics. rewrite Hcache.
  destruct events as [|e l] eqn:Hev; [congruence|]. rewrite <- Hev. clear Hne.
  intros (avg_ear & Havg_ear & H)%bind_Ok_inv.
  apply bind_Ok_inv in H as (avg_dur & Havg_dur & H).
  apply bind_Ok_inv in H as (average_ear & Hear & H).
  apply bind_Ok_inv in H as (average_duration & Hdur & H).
  apply bind_Ok_inv in H as (rate & Hrate & H).
  destruct (Z.ltb_spec 0 (Z.of_nat (length events))) as [_|Hle];
    [|rewrite Hev in Hle; cbn [length] in Hle; lia].
  apply bind_Ok_inv in Hrate as (ratio & Hratio & Hrate).
  apply bind_Ok_inv in Hrate as (r & Hr & [= <-]).
  injection H as <-.
  by exists avg_ear, avg_dur, ratio, average_ear, average_duration, r.
Qed.

(** ** The hourly window *)

Section Window.

Context `{!IsoFormat}.

Lemma in_last_hour_newer (t0 : Z) (e : event) :
  is_Some (naive_timestamp e) -> in_last_hour t0 e = Ok (newer t0 e).
Proof.
  unfold in_last_hour, newer, naive_timestamp.
  destruct (fromisoformat (timestamp e)) as [[t|t]|]; intros [t' [=]]; reflexivity.
Qed.

Lemma comprehension_filter (t0 : Z) (events : list event) :
  Forall (fun e => is_Some (naive_timestamp e)) events ->
  comprehension (in_last_hour t0) events
  = Ok (filter (fun e => newer t0 e = true) events).
Proof.
  induction 1 as [|e events He _ IH]; [reflexivity|].
  cbn [comprehension]. rewrite in_last_hour_newer, bind_Ok, IH, bind_Ok by done.
  rewrite filter_cons. destruct (newer t0 e); by case_decide.
Qed.

Lemma in_last_hour_Ok (t0 : Z) (e : event) (b : bool) :
  in_last_hour t0 e = Ok b -> is_Some (naive_timestamp e).
Proof.
  unfold in_last_hour, naive_timestamp.
  destruct (fromisoformat (timestamp e)) as [[t|t]|]; [eauto|discriminate..].
Qed.

Lemma comprehension_Ok {A : Type} (p : A -> result bool) (l r : list A) :
  comprehension p l = Ok r -> Forall (fun x => exists b, p x = Ok b) l.
Proof.
  revert r. induction l as [|x l IH]; intros r; [constructor|].
  cbn [comprehension]. intros (b & Hb & Hk)%bind_Ok_inv.
  apply bind_Ok_inv in Hk as (rest & Hrest & _).
  constructor; [eauto | by eapply IH].
Qed.

(** Reading back a summary that was returned. *)
Lemma get_hourly_summary_inv (detection_service : DetectionService) (now : Z)
    (summary : gmap string value) :
  get_hourly_summary detection_service now = Ok summary ->
  let events := events_cache detection_service in
  Forall (fun e => is_Some (naive_timestamp e)) events
  /\ summary !! "events_count" = Some (VInt (Z.of_nat (length (window now events))))
  /\ summary !! "period" = Some (VStr "last_hour").
Proof.
  intros Hsummary events.
  unfold get_hourly_summary in Hsummary. fold events in Hsummary.
  apply bind_Ok_inv in Hsummary as (recent & Hrecent & Hsummary).
  assert (Hparse : Forall (fun e => is_Some (naive_timestamp e)) events).
  { eapply Forall_impl; [by eapply comprehension_Ok|].
    intros e [b Hb]. by eapply in_last_hour_Ok. }
  split; [exact Hparse|].
  rewrite comprehension_filter in Hrecent by done. injection Hrecent as <-.
  fold (window now events) in Hsummary.
  destruct (window now events) as [|e l] eqn:Hwindow.
  - injection Hsummary as <-. split; reflexivity.
  - rewrite <- Hwindow in *.
    apply bind_Ok_inv in Hsummary as (avg & _ & Hsummary).
    apply bind_Ok_inv in Hsummary as (a & _ & Hsummary).
    apply bind_Ok_inv in Hsummary as (r & _ & Hsummary).
    injection Hsummary as <-. split; reflexivity.
Qed.

Lemma get_hourly_summary_returns (detection_service : DetectionService) (now : Z) :
  let events := events_cache detection_service in
  Forall (fun e => is_Some (naive_timestamp e)) events ->
  length events <= 1000 ->
  exists summary, get_hourly_summary detection_service now = Ok summary.
Proof.
  intros events Hparse Hlen.
  unfold get_hourly_summary. fold events.
  change (comprehension _ events) with (comprehension (in_last_hour (now - one_hour)) events).
  rewrite comprehension_filter by done. fold (window now events). rewrite bind_Ok.
  assert (Hrecent : length (window now events) <= 1000).
  { transitivity (length events); [apply length_filter | done]. }
  destruct (window now events) as [|e l] eqn:Hwindow; [eauto|].
  rewrite <- Hwindow in *.
  assert (Hn : Z.of_nat (length (window now events)) <> 0%Z)
    by (rewrite Hwindow; cbn [length]; lia).
  pose proof (small_of_nat _ Hrecent) as Hsmall.
  pose proof (drowsy_length_le (window now events)) as Hd.
  rewrite float_truediv_int_small, bind_Ok by done.
  destruct (round_total (Py.sum_float (map ear_value (window now events))
                         / Py.float_of_small (Z.of_nat (length (window now events)))) 3)
    as [a ->]; [lia|].
  rewrite bind_Ok, count_drowsy_length.
  rewrite int_truediv_small by (try apply small_of_nat; lia || done).
  rewrite bind_Ok.
  destruct (round_total
              (Py.float_of_small (Z.of_nat (length (drowsy (window now events))))
               / Py.float_of_small (Z.of_nat (length (window now events))) * 100) 2)
    as [r ->]; [lia|].
  rewrite !bind_Ok. eauto.
Qed.


End Window.

(** ** The hourly summary of a non-empty window *)

Section Summary.

Context `{!IsoFormat}.

(** C6, as amended.  When every cached timestamp reads as a naive
    datetime, the cache is within capacity and the window is not empty,
    the hourly summary has exactly five keys: "period", the count of
    the window as "events_count", its drowsy count as "drowsy_count",
    "average_ear" and "alert_rate".  These four aggregates are the
    values "total_events", "drowsy_events", "average_ear" and
    "drowsiness_rate" of the statistics computed over the window, by
    the same formulas and rounding. *)
Theorem hourly_summary_nonempty (detection_service : DetectionService) (now : Z) :
  let events := events_cache detection_service in
  let recent := window now events in
  Forall (fun e => is_Some (naive_timestamp e)) events ->
  length events <= 1000 ->
  recent <> [] ->
  exists average_ear alert_rate : float,
    Py.round (mean_ear_value recent) 3 = Ok average_ear
    /\ Py.round (percentage (length (drowsy recent)) (length recent)) 2 = Ok alert_rate
    /\ get_hourly_summary detection_service now
       = Ok {[ "period" := VStr "last_hour";
               "events_count" := VInt (Z.of_nat (length recent));
               "drowsy_count" := VInt (Z.of_nat (length (drowsy recent)));
               "average_ear" := VFloat average_ear;
               "alert_rate" := VFloat alert_rate ]}
    /\ (forall max_cache_size stats,
          get_statistics {| events_cache := recent; max_cache_size := max_cache_size |}
            = Ok stats ->
          stats !! "total_events" = Some (VInt (Z.of_nat (length recent)))
          /\ stats !! "drowsy_events" = Some (VInt (Z.of_nat (length (drowsy recent))))
          /\ stats !! "average_ear" = Some (VFloat average_ear)
          /\ stats !! "drowsiness_rate" = Some (VFloat alert_rate)).
Proof.
  intros events recent Hparse Hlen Hne.
  assert (Hrecent : length recent <= 1000).
  { transitivity (length events); [apply length_filter | done]. }
  destruct (round_total (mean_ear_value recent) 3 ltac:(lia)) as [average_ear Hear].
  destruct (round_total (percentage (length (drowsy recent)) (length recent)) 2 ltac:(lia))
    as [rate Hrate].
  assert (Hn : Z.of_nat (length recent) <> 0%Z)
    by (destruct recent; [congruence | cbn [length]; lia]).
  pose proof (small_of_nat _ Hrecent) as Hsmall.
  pose proof (drowsy_length_le recent) as Hd.
  exists average_ear, rate. split; [done|]. split; [done|]. split.
  - unfold get_hourly_summary. fold events.
    change (comprehension _ events) with (comprehension (in_last_hour (now - one_hour)) events).
    rewrite comprehension_filter by done. fold (window now events). fold recent.
    rewrite bind_Ok.
    destruct recent as [|e l] eqn:Hev; [congruence|]. rewrite <- Hev in *.
    rewrite float_truediv_int_small by done.
    rewrite bind_Ok. fold (mean_ear_value recent). rewrite Hear, bind_Ok.
    rewrite count_drowsy_length.
    rewrite int_truediv_small by (try apply small_of_nat; lia || done).
    rewrite bind_Ok. fold (percentage (length (drowsy recent)) (length recent)).
    rewrite Hrate. reflexivity.
  - intros m stats Hstats.
    apply get_statistics_inv in Hstats
      as (avg_ear & avg_dur & ratio & a & b & r
          & Havg & _ & Hratio & Ha & _ & Hr & ->); [|done].
    cbn [events_cache] in *.
    rewrite count_drowsy_length in *.
    rewrite float_truediv_int_small in Havg by done.
    rewrite int_truediv_small in Hratio by (try apply small_of_nat; lia || done).
    injection Havg as <-. injection Hratio as <-.
    fold (mean_ear_value recent) in Ha.
    fold (percentage (length (drowsy recent)) (length recent)) in Hr.
    rewrite Hear in Ha. rewrite Hrate in Hr. injection Ha as <-. injection Hr as <-.
    repeat split.
Qed.

End Summary.


(** Every cached event carries the severity the classifier gives to its
    own ratio and duration. *)
Lemma recorded_severity (rs : list request) :
  Forall (fun e => severity e = _calculate_severity (ear_value e) (duration_ms e))
    (events_cache (record_all init rs)).
Proof.
  rewrite record_all_events_cache. apply Forall_drop, Forall_fmap, Forall_forall.
  by intros r _.
Qed.


(** ** The system status *)

Section Status.

Context `{!IsoFormat}.


End Status.

(** ** Summaries that raise *)

Section Raising.

Context `{!IsoFormat}.

Lemma comprehension_raises {A : Type} (p : A -> result bool) (l : list A) :
  Exists (fun x => exists err, p x = Raise err) l ->
  exists err, comprehension p l = Raise err.
Proof.
  induction 1 as [x l [err Hx]|x l _ [err IH]]; cbn [comprehension].
  - rewrite Hx. by exists err.
  - destruct (p x) as [b|err']; [|by exists err'].
    rewrite bind_Ok, IH. by exists err.
Qed.

Lemma in_last_hour_raises (t0 : Z) (e : event) :
  naive_timestamp e = None -> exists err, in_last_hour t0 e = Raise err.
Proof.
  unfold naive_timestamp, in_last_hour.
  destruct (fromisoformat (timestamp e)) as [[t|t]|]; [discriminate|eauto..].
Qed.

(** C10.  Once the cache holds an event whose timestamp does not read
    as a naive datetime, the hourly summary raises, and with it the
    dashboard summary. *)
Theorem summaries_raise (detection_service : DetectionService) (now : Z)
    (utcnow : string) :
  Exists (fun e => naive_timestamp e = None) (events_cache detection_service) ->
  (exists err, get_hourly_summary detection_service now = Raise err)
  /\ (exists err, get_dashboard_summary detection_service now utcnow = Raise err).
Proof.
  intros Hbad.
  assert (Hhourly : exists err, get_hourly_summary detection_service now = Raise err).
  { unfold get_hourly_summary.
    destruct (comprehension_raises (in_last_hour (now - one_hour))
                (events_cache detection_service)) as [err Herr].
    - eapply Exists_impl; [exact Hbad|]. intros e. apply in_last_hour_raises.
    - rewrite Herr. by exists err. }
  split; [done|]. destruct Hhourly as [err Herr].
  unfold get_dashboard_summary.
  destruct (get_statistics detection_service) as [stats|err']; [|by exists err'].
  rewrite bind_Ok, Herr. by exists err.
Qed.

End Raising.

(** The schema's own example timestamp, recorded after the scenario. *)
Lemma summaries_raise_witness :
  Exists (fun e => naive_timestamp e = None)
    (events_cache (record scenario documented_example))
  /\ (exists err, get_hourly_summary (record scenario documented_example)
                    (instant "2025-12-27T12:00:10") = Raise err)
  /\ (exists err, get_dashboard_summary (record scenario documented_example)
                    (instant "2025-12-27T12:00:10") "2025-12-27T12:00:10" = Raise err).
Proof.
  assert (H : Exists (fun e => naive_timestamp e = None)
                (events_cache (record scenario documented_example))).
  { do 3 apply Exists_cons_tl. apply Exists_cons_hd. reflexivity. }
  split; [exact H|].
  exact (summaries_raise (record scenario documented_example)
           (instant "2025-12-27T12:00:10") "2025-12-27T12:00:10" H).
Defined.

(** A duration beyond the binary64 range makes the mean overflow. *)
Example get_statistics_overflow :
  get_statistics
    (record init {| req_ear_value := 0.15; req_is_drowsy := true;
                    req_duration_ms := 10 ^ 400; req_timestamp := None;
                    req_utcnow := "2025-12-27T12:00:05" |})
  = Raise OverflowError.
Proof. vm_compute. reflexivity. Qed.

(** ** The scenario, evaluated *)

Lemma scenario_timestamps :
  Forall (fun e => is_Some (naive_timestamp e)) (events_cache scenario).
Proof. repeat constructor; vm_compute; eauto. Qed.

Example scenario_severities :
  map severity (events_cache scenario) = ["none"; "low"; "high"].
Proof. reflexivity. Qed.

Lemma scenario_statistics_eq : get_statistics scenario = Ok scenario_statistics.
Proof. vm_compute. reflexivity. Qed.

(** C4 on the scenario: three events, two of them drowsy, a rate of
    66.67. *)
Lemma get_statistics_nonempty_witness :
  mean_duration_ms (events_cache scenario) = Ok (7600 / 3)%float
  /\ get_statistics scenario = Ok scenario_statistics
  /\ scenario_statistics !! "total_events" = Some (VInt 3)
  /\ scenario_statistics !! "drowsy_events" = Some (VInt 2)
  /\ scenario_statistics !! "drowsiness_rate" = Some (VFloat 66.67).
Proof.
  assert (Havg : mean_duration_ms (events_cache scenario) = Ok (7600 / 3)%float)
    by (vm_compute; reflexivity).
  split; [exact Havg|].
  destruct (get_statistics_nonempty scenario (7600 / 3)%float)
    as (average_ear & average_duration_ms & drowsiness_rate
        & Hear & Hdur & Hrate & Hstats & _).
  - discriminate.
  - vm_compute. lia.
  - exact Havg.
  - split; [|repeat split; vm_compute; reflexivity].
    rewrite Hstats.
    vm_compute in Hear, Hdur, Hrate.
    injection Hear as <-. injection Hdur as <-. injection Hrate as <-.
    vm_compute. reflexivity.
Defined.

(** With 23 drowsy events out of 160 the rate returned is 14.37, while
    [100 * 23 / 160], which is 14.375 exactly, rounds to 14.38; and on
    a non-empty cache whose mean duration is out of the range of
    [float] nothing is returned. *)
Lemma get_statistics_rate_differs :
  length (events_cache tie) = 160
  /\ length (drowsy (events_cache tie)) = 23
  /\ (stats ← get_statistics tie; Ok (stats !! "drowsiness_rate"))
     = Ok (Some (VFloat 14.37))
  /\ (rate ← percentage_as_specified 23 160; Py.round rate 2) = Ok 14.38%float
  /\ (14.37 <? 14.38)%float = true
  /\ length (events_cache overlong) = 1
  /\ get_statistics overlong = Raise OverflowError.
Proof. repeat split; vm_compute; reflexivity. Qed.


(** One hour to the microsecond after the first event, the window
    holds the other two. *)
Example window_excludes_boundary :
  window (instant "2025-12-27T13:00:00") (events_cache scenario)
  = drop 1 (events_cache scenario).
Proof. vm_compute. reflexivity. Qed.

(** C6 on the scenario, half an hour on. *)
Lemma hourly_summary_nonempty_witness :
  get_hourly_summary scenario (instant "2025-12-27T12:30:00") = Ok scenario_summary.
Proof.
  destruct (hourly_summary_nonempty scenario (instant "2025-12-27T12:30:00")
              scenario_timestamps)
    as (average_ear & alert_rate & Hear & Hrate & Hsummary & _).
  - vm_compute. lia.
  - vm_compute. discriminate.
  - rewrite Hsummary.
    vm_compute in Hear, Hrate. injection Hear as <-. injection Hrate as <-.
    vm_compute. reflexivity.
Defined.

(** The window of the scenario holds all three events half an hour on,
    yet its summary has neither a mean duration nor a severity
    histogram, which the statistics of the same three events have. *)
Lemma hourly_summary_lacks_statistics_fields :
  window (instant "2025-12-27T12:30:00") (events_cache scenario) = events_cache scenario
  /\ get_hourly_summary scenario (instant "2025-12-27T12:30:00") = Ok scenario_summary
  /\ get_statistics scenario = Ok scenario_statistics
  /\ scenario_statistics !! "average_duration_ms" = Some (VFloat 2533.33)
  /\ scenario_statistics !! "severity_distribution"
     = Some (VDict {[ "none" := 1%Z; "low" := 1%Z; "high" := 1%Z ]})
  /\ scenario_summary !! "average_duration_ms" = None
  /\ scenario_summary !! "severity_distribution" = None.
Proof. repeat split; vm_compute; reflexivity. Qed.


(** * Further properties *)

(** ** The cache under any capacity *)

Lemma record_all_events_cache_from (self : DetectionService) (rs : list request) :
  (Z.of_nat (length (events_cache self)) <= max_cache_size self)%Z ->
  let all := events_cache self ++ (event_of <$> rs) in
  events_cache (record_all self rs)
  = drop (length all - Z.to_nat (max_cache_size self)) all
  /\ (Z.of_nat (length (events_cache (record_all self rs))) <= max_cache_size self)%Z.
Proof.
  intros Hcap all. subst all.
  assert (Hmain : events_cache (record_all self rs)
    = drop (length (events_cache self ++ (event_of <$> rs))
            - Z.to_nat (max_cache_size self))
        (events_cache self ++ (event_of <$> rs))).
  { induction rs as [|r rs IH] using rev_ind.
    - cbn [fmap list_fmap]. rewrite app_nil_r.
      replace (_ - _) with 0 by lia. reflexivity.
    - rewrite record_all_snoc, record_events_cache, record_all_max_cache_size, IH.
      cbn zeta. rewrite fmap_app, !length_app, length_drop, !length_app, !length_fmap.
      cbn [length fmap list_fmap]. rewrite app_assoc.
      set (c := events_cache self ++ (event_of <$> rs)) in *.
      assert (Hc : length c = length (events_cache self) + length rs)
        by (unfold c; by rewrite length_app, length_fmap).
      rewrite <- Hc.
      destruct (Z.ltb_spec (max_cache_size self)
                  (Z.of_nat (length c - (length c - Z.to_nat (max_cache_size self)) + 1)))
        as [Hlt|Hge].
      + rewrite <- drop_app_le by lia.
        replace (length (events_cache self) + (length rs + 1)
                 - Z.to_nat (max_cache_size self))
          with (S (length c - Z.to_nat (max_cache_size self))) by lia.
        apply tail_drop.
      + replace (length c - Z.to_nat (max_cache_size self)) with 0 by lia.
        replace (length (events_cache self) + (length rs + 1)
                 - Z.to_nat (max_cache_size self)) with 0 by lia.
        reflexivity. }
  split; [exact Hmain|]. rewrite Hmain, length_drop. lia.
Qed.

(** X1.  From any state that respects its capacity, whatever the
    capacity, recording keeps the newest events up to the capacity,
    oldest first, and the capacity stays respected. *)
Theorem record_all_fifo (self : DetectionService) (rs : list request) :
  (Z.of_nat (length (events_cache self)) <= max_cache_size self)%Z ->
  let all := events_cache self ++ (event_of <$> rs) in
  events_cache (record_all self rs)
  = drop (length all - Z.to_nat (max_cache_size self)) all
  /\ (Z.of_nat (length (events_cache (record_all self rs))) <= max_cache_size self)%Z.
Proof. apply record_all_events_cache_from. Qed.

(** A capacity of two, holding the first two events of the scenario,
    keeps the last two after the third. *)
Lemma record_all_fifo_witness :
  let self := {| events_cache := take 2 (events_cache scenario);
                 max_cache_size := 2 |} in
  events_cache (record_all self (drop 2 scenario_requests))
  = drop 1 (events_cache scenario).
Proof.
  intros self.
  destruct (record_all_fifo self (drop 2 scenario_requests)) as [Hcache _].
  - vm_compute. discriminate.
  - rewrite Hcache. vm_compute. reflexivity.
Defined.

(** ** The newest event *)

Lemma last_tail_snoc {A : Type} (l : list A) (x : A) :
  l <> [] -> tail (l ++ [x]) = tail l ++ [x].
Proof. by destruct l. Qed.

Lemma process_detection_event_last (self : DetectionService)
    (ear_value : float) (is_drowsy : bool) (duration_ms : Z)
    (timestamp : option string) (utcnow : string) :
  (1 <= max_cache_size self)%Z ->
  let result := process_detection_event self ear_value is_drowsy duration_ms
                  timestamp utcnow in
  last (events_cache (snd result)) = Some (fst result)
  /\ get_recent_events (snd result) 1 = [fst result].
Proof.
  intros Hcap result. subst result.
  unfold process_detection_event. cbn [fst snd events_cache].
  set (e := {| timestamp := _ |}).
  assert (Hlast : exists l, (if (max_cache_size self
                                 <? Z.of_nat (length (events_cache self ++ [e])))%Z
                             then pop0 (events_cache self ++ [e])
                             else events_cache self ++ [e]) = l ++ [e]).
  { destruct (Z.ltb_spec (max_cache_size self)
                (Z.of_nat (length (events_cache self ++ [e])))) as [Hlt|_];
      [|by eexists].
    rewrite length_app in Hlt. cbn [length] in Hlt.
    unfold pop0. exists (tail (events_cache self)).
    apply last_tail_snoc. intros Hnil. rewrite Hnil in Hlt. cbn in Hlt. lia. }
  destruct Hlast as [l ->]. split; [apply last_snoc|].
  unfold get_recent_events, slice_from. cbn [events_cache].
  destruct (l ++ [e]) as [|x l'] eqn:Heq; [by destruct l|]. rewrite <- Heq.
  rewrite length_app. cbn [length].
  change (Z.opp 1) with (-1)%Z. change (-1 <? 0)%Z with true. cbn match.
  replace (Z.to_nat _) with (length l) by lia.
  by rewrite drop_app_length.
Qed.

(** X2.  With a capacity of at least one, the event a call returns is
    the last of the cache afterwards, and asking for one recent event
    gives exactly it. *)
Theorem process_detection_event_newest (self : DetectionService)
    (ear_value : float) (is_drowsy : bool) (duration_ms : Z)
    (timestamp : option string) (utcnow : string) :
  (1 <= max_cache_size self)%Z ->
  let result := process_detection_event self ear_value is_drowsy duration_ms
                  timestamp utcnow in
  last (events_cache (snd result)) = Some (fst result)
  /\ get_recent_events (snd result) 1 = [fst result].
Proof. apply process_detection_event_last. Qed.

(** The event just recorded into the scenario is its newest. *)
Lemma process_detection_event_newest_witness :
  get_recent_events (record scenario documented_example) 1
  = [event_of documented_example].
Proof.
  destruct (process_detection_event_newest scenario 0.15 true 3500
              (Some "2025-12-27T12:00:00.000Z") "2025-12-27T12:00:05") as [_ Hrecent].
  - vm_compute. discriminate.
  - exact Hrecent.
Defined.

(** ** Recent events, for every limit *)

(** X3.  For a positive limit the recent events are a suffix of the
    cache, newest last, of as many events as the limit allows and the
    cache holds. *)
Theorem get_recent_events_suffix (self : DetectionService) (limit : Z) :
  (0 < limit)%Z ->
  (exists older, events_cache self = older ++ get_recent_events self limit)
  /\ Z.of_nat (length (get_recent_events self limit))
     = Z.min limit (Z.of_nat (length (events_cache self))).
Proof.
  intros Hpos. destruct (get_recent_events_positive self limit Hpos) as [-> _].
  split.
  - exists (take (length (events_cache self) - Z.to_nat limit) (events_cache self)).
    by rewrite take_drop.
  - rewrite length_drop. lia.
Qed.

(** The last two of the scenario. *)
Lemma get_recent_events_suffix_witness :
  Z.of_nat (length (get_recent_events scenario 2)) = 2%Z.
Proof.
  destruct (get_recent_events_suffix scenario 2) as [_ ->]; [lia|].
  vm_compute. reflexivity.
Defined.

(** X4.  A negative limit [-k] makes the slice [events_cache[k:]]: the
    cache without its first [k] events, which can be more than any
    limit was meant to allow. *)
Theorem get_recent_events_negative (self : DetectionService) (limit : Z) :
  (limit < 0)%Z ->
  get_recent_events self limit = drop (Z.to_nat (- limit)) (events_cache self).
Proof.
  intros Hneg. unfold get_recent_events, slice_from.
  destruct (events_cache self) as [|e cache] eqn:Hcache; [by rewrite drop_nil|].
  rewrite <- Hcache. clear Hcache.
  destruct (Z.ltb_spec (- limit) 0) as [|_]; [lia|].
  destruct (Z.min_spec (- limit) (Z.of_nat (length (events_cache self))))
    as [[_ ->]|[Hle ->]]; [reflexivity|].
  rewrite Nat2Z.id, !drop_ge by lia. reflexivity.
Qed.

Lemma get_recent_events_negative_witness :
  get_recent_events scenario (-1) = drop 1 (events_cache scenario).
Proof. apply (get_recent_events_negative scenario (-1)). lia. Defined.

(** ** What a cache can hold *)

(** X5.  Every event of a cache built from the empty one carries the
    severity the classifier gives to its own ratio and duration, one of
    the four labels; the stored severity is never anything else. *)
Theorem cached_severity (rs : list request) (e : event) :
  e ∈ events_cache (record_all init rs) ->
  severity e = _calculate_severity (ear_value e) (duration_ms e)
  /\ severity e ∈ ["none"; "low"; "medium"; "high"].
Proof.
  intros Hin.
  pose proof (recorded_severity rs) as Hall.
  rewrite Forall_forall in Hall. specialize (Hall e Hin).
  split; [exact Hall|]. rewrite Hall. apply calculate_severity_range.
Qed.

Lemma cached_severity_witness :
  severity (event_of documented_example) = "medium".
Proof.
  destruct (cached_severity [documented_example] (event_of documented_example))
    as [-> _]; [|vm_compute; reflexivity].
  vm_compute. apply list_elem_of_here.
Defined.

(** ** The counts add up *)

Lemma histogram_total_insert (h : gmap string Z) (label : string) (n : Z) :
  h !! label = None ->
  histogram_total (<[label := n]> h) = (n + histogram_total h)%Z.
Proof.
  intros Hnone. unfold histogram_total.
  apply (map_fold_insert_L (fun _ n total => (n + total)%Z)); [|done].
  intros. lia.
Qed.

Lemma histogram_total_bump (h : gmap string Z) (label : string) :
  histogram_total (<[label := (default 0 (h !! label) + 1)%Z]> h)
  = (histogram_total h + 1)%Z.
Proof.
  destruct (h !! label) as [n|] eqn:Hlookup; cbn [default].
  - rewrite <- (insert_delete_eq h).
    rewrite <- (insert_delete_id h label n) at 2 by done.
    rewrite !histogram_total_insert by apply lookup_delete_eq. unfold id. lia.
  - rewrite histogram_total_insert by done. lia.
Qed.

Lemma severity_counts_total (events : list event) :
  histogram_total (severity_counts events) = Z.of_nat (length events).
Proof.
  unfold severity_counts.
  induction events as [|e events IH] using rev_ind; [reflexivity|].
  rewrite fold_left_app, length_app. cbn [fold_left length].
  rewrite histogram_total_bump, IH. lia.
Qed.

Lemma get_statistics_empty_cache (self : DetectionService) :
  events_cache self = [] ->
  get_statistics self
  = Ok {[ "total_events" := VInt 0;
          "drowsy_events" := VInt 0;
          "average_ear" := VFloat 0;
          "average_duration" := VFloat 0;
          "severity_distribution" := VDict ∅ ]}.
Proof. intros Hempty. unfold get_statistics. by rewrite Hempty. Qed.

(** X6.  Whatever [get_statistics] returns is consistent: the total is
    the number of cached events, the drowsy count lies between 0 and
    the total, and the counts of the severity histogram add up to the
    total. *)
Theorem get_statistics_consistent (self : DetectionService)
    (stats : gmap string value) :
  get_statistics self = Ok stats ->
  exists (total drowsy : Z) (histogram : gmap string Z),
    stats !! "total_events" = Some (VInt total)
    /\ stats !! "drowsy_events" = Some (VInt drowsy)
    /\ stats !! "severity_distribution" = Some (VDict histogram)
    /\ total = Z.of_nat (length (events_cache self))
    /\ (0 <= drowsy <= total)%Z
    /\ histogram_total histogram = total.
Proof.
  intros Hstats.
  destruct (events_cache self) as [|e l] eqn:Hcache.
  - rewrite get_statistics_empty_cache in Hstats by done. injection Hstats as <-.
    exists 0%Z, 0%Z, ∅. repeat split; reflexivity || lia.
  - rewrite <- Hcache.
    apply get_statistics_inv in Hstats
      as (? & ? & ? & a & b & r & _ & _ & _ & _ & _ & _ & ->);
      [|rewrite Hcache; discriminate].
    exists (Z.of_nat (length (events_cache self))),
      (count_drowsy (events_cache self)), (severity_counts (events_cache self)).
    pose proof (drowsy_length_le (events_cache self)).
    rewrite count_drowsy_length.
    repeat split; try reflexivity; try lia. apply severity_counts_total.
Qed.

Lemma get_statistics_consistent_witness :
  histogram_total {[ "none" := 1%Z; "low" := 1%Z; "high" := 1%Z ]} = 3%Z.
Proof.
  destruct (get_statistics_consistent scenario scenario_statistics scenario_statistics_eq)
    as (total & drowsy & histogram & Htotal & _ & Hhist & _ & _ & Hsum).
  vm_compute in Htotal, Hhist. injection Htotal as <-. injection Hhist as <-.
  exact Hsum.
Defined.

(** ** How the statistics can fail *)

Lemma int_truediv_result (a b : Z) :
  b <> 0%Z ->
  (exists x, Py.int_truediv a b = Ok x)
  \/ (Py.int_truediv a b = Raise OverflowError /\ Py.small a && Py.small b = false).
Proof.
  intros Hb. unfold Py.int_truediv.
  destruct (Z.eqb_spec b 0); [done|].
  destruct (Py.small a && Py.small b); [eauto|].
  destruct (Z.abs a), (Z.abs b); eauto.
  unfold Py.finite_or_overflow. destruct (Py.div_nearest _ _ _); eauto.
Qed.

Lemma get_statistics_result (self : DetectionService) :
  let events := events_cache self in
  events <> [] ->
  length events <= 1000 ->
  (exists stats, get_statistics self = Ok stats)
  \/ (get_statistics self = Raise OverflowError
      /\ Py.small (Py.sum_int (map duration_ms events)) = false
      /\ Py.int_truediv (Py.sum_int (map duration_ms events))
           (Z.of_nat (length events)) = Raise OverflowError).
Proof.
  intros events.
  assert (Hcache : events_cache self = events) by reflexivity. clearbody events.
  intros Hne Hlen.
  assert (Hn : Z.of_nat (length events) <> 0%Z)
    by (destruct events; [congruence | cbn [length]; lia]).
  pose proof (small_of_nat _ Hlen) as Hsmall.
  pose proof (drowsy_length_le events) as Hd.
  unfold get_statistics. rewrite Hcache.
  destruct events as [|e l] eqn:Hev; [congruence|]. rewrite <- Hev in *.
  rewrite float_truediv_int_small, bind_Ok by done.
  destruct (int_truediv_result (Py.sum_int (map duration_ms events))
              (Z.of_nat (length events)) Hn) as [[avg ->]|[Hraise Hbig]].
  - left. rewrite bind_Ok.
    destruct (round_total (Py.sum_float (map ear_value events)
                           / Py.float_of_small (Z.of_nat (length events))) 3)
      as [a ->]; [lia|].
    destruct (round_total avg 2) as [b ->]; [lia|]. rewrite !bind_Ok.
    destruct (Z.ltb_spec 0 (Z.of_nat (length events))) as [_|]; [|lia].
    rewrite count_drowsy_length.
    rewrite int_truediv_small by (try apply small_of_nat; lia || done).
    rewrite bind_Ok.
    destruct (round_total (Py.float_of_small (Z.of_nat (length (drowsy events)))
                           / Py.float_of_small (Z.of_nat (length events)) * 100) 2)
      as [r ->]; [lia|].
    rewrite !bind_Ok. eauto.
  - right. rewrite Hraise. split; [reflexivity|]. split; [|done].
    rewrite Hsmall, andb_true_r in Hbig. exact Hbig.
Qed.

(** X7.  On a non-empty cache within capacity [get_statistics] fails in
    one way only: with [OverflowError], when the sum of the durations is
    no exactly representable [int] and their mean is out of the range
    of [float].  It never divides by zero. *)
Theorem get_statistics_failure (self : DetectionService) :
  let events := events_cache self in
  events <> [] ->
  length events <= 1000 ->
  (exists stats, get_statistics self = Ok stats)
  \/ (get_statistics self = Raise OverflowError
      /\ Py.small (Py.sum_int (map duration_ms events)) = false
      /\ Py.int_truediv (Py.sum_int (map duration_ms events))
           (Z.of_nat (length events)) = Raise OverflowError).
Proof. apply get_statistics_result. Qed.

(** A duration of 10^400 milliseconds. *)
Lemma get_statistics_failure_witness :
  get_statistics
    (record init {| req_ear_value := 0.15; req_is_drowsy := true;
                    req_duration_ms := 10 ^ 400; req_timestamp := None;
                    req_utcnow := "2025-12-27T12:00:05" |})
  = Raise OverflowError.
Proof.
  destruct (get_statistics_failure
              (record init {| req_ear_value := 0.15; req_is_drowsy := true;
                              req_duration_ms := 10 ^ 400; req_timestamp := None;
                              req_utcnow := "2025-12-27T12:00:05" |}))
    as [[stats Hstats]|[Hraise _]].
  - discriminate.
  - vm_compute. lia.
  - vm_compute in Hstats. discriminate Hstats.
  - exact Hraise.
Defined.

(** ** The window over time *)

Section WindowFacts.

Context `{!IsoFormat}.

Lemma newer_mono (t0 t1 : Z) (e : event) :
  (t0 <= t1)%Z -> newer t1 e = true -> newer t0 e = true.
Proof.
  unfold newer. destruct (naive_timestamp e) as [t|]; [|done].
  rewrite !Z.ltb_lt. lia.
Qed.

Lemma window_later (now later : Z) (events : list event) :
  (now <= later)%Z ->
  window later events = window later (window now events).
Proof.
  intros Hle. unfold window. rewrite list_filter_filter. apply list_filter_iff.
  intros e. split; [|tauto]. intros Hnew. split; [done|].
  apply (newer_mono _ (later - one_hour)); [lia | done].
Qed.

(** X8.  The hourly summary only loses events as the clock advances.
    When it is returned at an instant and at a later one, the events
    the comprehension keeps at the later instant are those it keeps
    there out of the earlier selection, each of them is in the earlier
    selection, and the later "events_count" is at most the earlier
    one. *)
Theorem hourly_window_shrinks (detection_service : DetectionService)
    (now later : Z) (earlier_summary later_summary : gmap string value) :
  (now <= later)%Z ->
  get_hourly_summary detection_service now = Ok earlier_summary ->
  get_hourly_summary detection_service later = Ok later_summary ->
  exists (recent later_recent : list event) (count later_count : Z),
    comprehension (in_last_hour (now - one_hour)) (events_cache detection_service)
    = Ok recent
    /\ comprehension (in_last_hour (later - one_hour)) (events_cache detection_service)
       = Ok later_recent
    /\ comprehension (in_last_hour (later - one_hour)) recent = Ok later_recent
    /\ (forall e, e ∈ later_recent -> e ∈ recent)
    /\ earlier_summary !! "events_count" = Some (VInt count)
    /\ later_summary !! "events_count" = Some (VInt later_count)
    /\ (0 <= later_count <= count)%Z.
Proof.
  intros Hle Hearlier Hlater.
  apply get_hourly_summary_inv in Hearlier as (Hparse & Hcount & _).
  apply get_hourly_summary_inv in Hlater as (_ & Hlater_count & _).
  set (events := events_cache detection_service) in *.
  pose proof (window_later now later events Hle) as Heq.
  exists (window now events), (window later events),
    (Z.of_nat (length (window now events))), (Z.of_nat (length (window later events))).
  split; [by apply comprehension_filter|].
  split; [by apply comprehension_filter|].
  split; [|split; [|split; [done|split; [done|]]]].
  - rewrite Heq. apply comprehension_filter.
    unfold window. rewrite Forall_forall in Hparse. apply Forall_forall.
    intros e [_ He]%list_elem_of_filter. by apply Hparse.
  - intros e. rewrite Heq. unfold window at 1. rewrite list_elem_of_filter. tauto.
  - rewrite Heq. pose proof (length_filter (fun e => newer (later - one_hour) e = true)
                               (window now events)) as Hlen.
    fold (window later (window now events)) in Hlen. lia.
Qed.

End WindowFacts.

Lemma scenario_summary_at_the_hour :
  get_hourly_summary scenario (instant "2025-12-27T13:00:00")
  = Ok {[ "period" := VStr "last_hour";
          "events_count" := VInt 2;
          "drowsy_count" := VInt 2;
          "average_ear" := VFloat 0.1;
          "alert_rate" := VFloat 100 ]}.
Proof. vm_compute. reflexivity. Qed.

Lemma scenario_summary_a_second_later :
  get_hourly_summary scenario (instant "2025-12-27T13:00:01")
  = Ok {[ "period" := VStr "last_hour";
          "events_count" := VInt 1;
          "drowsy_count" := VInt 1;
          "average_ear" := VFloat 0.1;
          "alert_rate" := VFloat 100 ]}.
Proof. vm_compute. reflexivity. Qed.

(** The scenario at one hour after its first event, and a second
    later: of the two events kept first, one is kept then. *)
Lemma hourly_window_shrinks_witness :
  comprehension (in_last_hour (instant "2025-12-27T13:00:01" - one_hour))
    (drop 1 (events_cache scenario))
  = Ok (drop 2 (events_cache scenario)).
Proof.
  destruct (hourly_window_shrinks scenario (instant "2025-12-27T13:00:00")
              (instant "2025-12-27T13:00:01") _ _ ltac:(vm_compute; discriminate)
              scenario_summary_at_the_hour scenario_summary_a_second_later)
    as (recent & later_recent & _ & _ & Hrecent & Hlater_recent & Hboth & _).
  vm_compute in Hrecent. injection Hrecent as <-.
  vm_compute in Hlater_recent. injection Hlater_recent as <-.
  vm_compute. vm_compute in Hboth. exact Hboth.
Defined.

(** ** When the hourly summary succeeds *)

Section HourlyFacts.

Context `{!IsoFormat}.

Lemma in_last_hour_Raise (t0 : Z) (e : event) (err : exn) :
  in_last_hour t0 e = Raise err ->
  naive_timestamp e = None /\ (err = ValueError \/ err = TypeError).
Proof.
  unfold in_last_hour, naive_timestamp.
  destruct (fromisoformat (timestamp e)) as [[t|t]|]; intros [=]; subst; eauto.
Qed.

Lemma comprehension_Raise {A : Type} (p : A -> result bool) (l : list A) (err : exn) :
  comprehension p l = Raise err -> Exists (fun x => p x = Raise err) l.
Proof.
  induction l as [|x l IH]; cbn [comprehension]; [discriminate|].
  destruct (p x) as [b|err'] eqn:Hx.
  - rewrite bind_Ok. destruct (comprehension p l) as [rest|err'']; [discriminate|].
    intros [= ->]. apply Exists_cons_tl. by apply IH.
  - intros [= ->]. by apply Exists_cons_hd.
Qed.

Lemma get_hourly_summary_error (detection_service : DetectionService) (now : Z)
    (err : exn) :
  length (events_cache detection_service) <= 1000 ->
  get_hourly_summary detection_service now = Raise err ->
  Exists (fun e => naive_timestamp e = None) (events_cache detection_service)
  /\ (err = ValueError \/ err = TypeError).
Proof.
  intros Hlen Hraise.
  destruct (comprehension (in_last_hour (now - one_hour))
              (events_cache detection_service)) as [recent|err'] eqn:Hrecent.
  - exfalso.
    destruct (get_hourly_summary_returns detection_service now) as [summary Hok];
      [|done|congruence].
    eapply Forall_impl; [by eapply comprehension_Ok|].
    intros e [b Hb]. by eapply in_last_hour_Ok.
  - unfold get_hourly_summary in Hraise. rewrite Hrecent in Hraise.
    injection Hraise as <-.
    apply comprehension_Raise in Hrecent.
    split.
    + eapply Exists_impl; [exact Hrecent|]. intros e He.
      by apply in_last_hour_Raise in He as [? _].
    + apply Exists_exists in Hrecent as (e & _ & He).
      by apply in_last_hour_Raise in He as [_ ?].
Qed.

(** X9.  On a cache within capacity the hourly summary succeeds exactly
    when every cached timestamp reads as a naive datetime, and when it
    fails it is with [ValueError] or [TypeError]. *)
Theorem hourly_summary_succeeds_iff (detection_service : DetectionService) (now : Z) :
  length (events_cache detection_service) <= 1000 ->
  ((exists summary, get_hourly_summary detection_service now = Ok summary)
   <-> Forall (fun e => is_Some (naive_timestamp e)) (events_cache detection_service))
  /\ (forall err, get_hourly_summary detection_service now = Raise err ->
                  err = ValueError \/ err = TypeError).
Proof.
  intros Hlen. split; [split|].
  - intros [summary Hsummary]. by apply get_hourly_summary_inv in Hsummary as [? _].
  - intros Hparse. by apply get_hourly_summary_returns.
  - intros err Herr. by apply get_hourly_summary_error in Herr as [_ ?].
Qed.

(** X10.  A dashboard that was returned is consistent: the count of the
    last hour is at most the total of the statistics, which is the
    number of cached events. *)
Theorem dashboard_consistent (detection_service : DetectionService) (now : Z)
    (utcnow : string) (d : dashboard) :
  get_dashboard_summary detection_service now utcnow = Ok d ->
  exists events_count total_events : Z,
    last_hour d !! "events_count" = Some (VInt events_count)
    /\ overall d !! "total_events" = Some (VInt total_events)
    /\ (0 <= events_count <= total_events)%Z
    /\ total_events = Z.of_nat (length (events_cache detection_service))
    /\ dashboard_timestamp d = utcnow.
Proof.
  unfold get_dashboard_summary.
  intros (stats & Hstats & Hk)%bind_Ok_inv.
  apply bind_Ok_inv in Hk as (hourly & Hhourly & Hk).
  apply bind_Ok_inv in Hk as (st & _ & [= <-]). cbn [last_hour overall dashboard_timestamp].
  apply get_hourly_summary_inv in Hhourly as (_ & Hcount & _).
  exists (Z.of_nat (length (window now (events_cache detection_service)))),
    (Z.of_nat (length (events_cache detection_service))).
  split; [exact Hcount|].
  assert (length (window now (events_cache detection_service))
          <= length (events_cache detection_service)) by apply length_filter.
  split; [|repeat split; lia].
  destruct (events_cache detection_service) as [|e l] eqn:Hcache.
  - rewrite get_statistics_empty_cache in Hstats by done. by injection Hstats as <-.
  - rewrite <- Hcache.
    apply get_statistics_inv in Hstats
      as (? & ? & ? & a & b & r & _ & _ & _ & _ & _ & _ & ->);
      [reflexivity | rewrite Hcache; discriminate].
Qed.

Lemma get_system_status_returns (self : DetectionService) (stats : gmap string value) :
  get_statistics self = Ok stats -> exists label, _get_system_status stats = Ok label.
Proof.
  intros Hstats. destruct (events_cache self) as [|e l] eqn:Hcache.
  - rewrite get_statistics_empty_cache in Hstats by done. injection Hstats as <-.
    by exists "idle".
  - apply get_statistics_inv in Hstats
      as (? & ? & ? & a & b & r & _ & _ & _ & _ & _ & _ & ->);
      [|rewrite Hcache; discriminate].
    unfold _get_system_status.
    change (_ !! "total_events") with (Some (VInt (Z.of_nat (length (events_cache self))))).
    change (_ !! "drowsiness_rate") with (Some (VFloat r)).
    cbn [value_eq_int default]. destruct (_ =? 0)%Z; [eauto|].
    unfold id. cbn [value_gt_int]. rewrite bind_Ok.
    destruct (_ <? r)%float; [eauto|]. rewrite bind_Ok.
    destruct (_ <? r)%float; eauto.
Qed.

(** X11.  The dashboard is returned exactly when both the statistics
    and the hourly summary are: deriving the status from the
    statistics never fails.  A returned dashboard carries the two
    unchanged, with the status of those statistics. *)
Theorem dashboard_succeeds_iff (detection_service : DetectionService) (now : Z)
    (utcnow : string) :
  ((exists d, get_dashboard_summary detection_service now utcnow = Ok d)
   <-> (exists stats, get_statistics detection_service = Ok stats)
       /\ (exists hourly, get_hourly_summary detection_service now = Ok hourly))
  /\ (forall d, get_dashboard_summary detection_service now utcnow = Ok d ->
        get_statistics detection_service = Ok (overall d)
        /\ get_hourly_summary detection_service now = Ok (last_hour d)
        /\ _get_system_status (overall d) = Ok (status d)
        /\ dashboard_timestamp d = utcnow).
Proof.
  assert (Hinv : forall d, get_dashboard_summary detection_service now utcnow = Ok d ->
        get_statistics detection_service = Ok (overall d)
        /\ get_hourly_summary detection_service now = Ok (last_hour d)
        /\ _get_system_status (overall d) = Ok (status d)
        /\ dashboard_timestamp d = utcnow).
  { intros d. unfold get_dashboard_summary.
    intros (stats & Hstats & Hk)%bind_Ok_inv.
    apply bind_Ok_inv in Hk as (hourly & Hhourly & Hk).
    apply bind_Ok_inv in Hk as (label & Hlabel & [= <-]). done. }
  split; [split|exact Hinv].
  - intros [d (Hstats & Hhourly & _)%Hinv]. eauto.
  - intros [[stats Hstats] [hourly Hhourly]].
    destruct (get_system_status_returns _ _ Hstats) as [label Hlabel].
    unfold get_dashboard_summary.
    rewrite Hstats, bind_Ok, Hhourly, bind_Ok, Hlabel. eauto.
Qed.

End HourlyFacts.

(** The scenario succeeds; with the schema's example recorded it fails:
    [Iso.parse] rejects the string, which is its [ValueError]. *)
Lemma hourly_summary_succeeds_iff_witness :
  (exists summary,
     get_hourly_summary scenario (instant "2025-12-27T12:30:00") = Ok summary)
  /\ get_hourly_summary (record scenario documented_example)
       (instant "2025-12-27T12:30:00") = Raise ValueError.
Proof.
  split.
  - apply (hourly_summary_succeeds_iff scenario (instant "2025-12-27T12:30:00"));
      [vm_compute; lia | exact scenario_timestamps].
  - destruct (get_hourly_summary (record scenario documented_example)
                (instant "2025-12-27T12:30:00")) as [summary|err] eqn:Hsummary;
      [vm_compute in Hsummary; discriminate Hsummary|].
    destruct (hourly_summary_succeeds_iff (record scenario documented_example)
                (instant "2025-12-27T12:30:00")) as [_ Herr]; [vm_compute; lia|].
    destruct (Herr err Hsummary) as [->| ->]; [reflexivity|].
    vm_compute in Hsummary. discriminate Hsummary.
Defined.

Lemma scenario_dashboard :
  get_dashboard_summary scenario (instant "2025-12-27T13:00:01") "2025-12-27T13:00:01"
  = Ok {| overall := scenario_statistics;
          last_hour := {[ "period" := VStr "last_hour";
                          "events_count" := VInt 1;
                          "drowsy_count" := VInt 1;
                          "average_ear" := VFloat 0.1;
                          "alert_rate" := VFloat 100 ]};
          status := "critical";
          dashboard_timestamp := "2025-12-27T13:00:01" |}.
Proof. vm_compute. reflexivity. Qed.

(** The scenario, a second past the hour: one event of three is left in
    the window. *)
Lemma dashboard_consistent_witness :
  exists events_count total_events : Z,
    (0 <= events_count <= total_events)%Z /\ total_events = 3%Z.
Proof.
  destruct (dashboard_consistent scenario _ _ _ scenario_dashboard)
    as (events_count & total_events & _ & _ & Hle & Htotal & _).
  exists events_count, total_events. split; [exact Hle|]. rewrite Htotal. reflexivity.
Defined.

(** ** An unreadable timestamp, while it is cached *)

Section Unreadable.

Context `{!IsoFormat}.

Lemma get_hourly_summary_raises (detection_service : DetectionService) (now : Z) :
  Exists (fun e => naive_timestamp e = None) (events_cache detection_service) ->
  exists err, get_hourly_summary detection_service now = Raise err.
Proof.
  intros Hbad. unfold get_hourly_summary.
  destruct (comprehension_raises (in_last_hour (now - one_hour))
              (events_cache detection_service)) as [err Herr].
  - eapply Exists_impl; [exact Hbad|]. intros e. apply in_last_hour_raises.
  - rewrite Herr. by exists err.
Qed.

(** X12.  On a service of capacity 1000, an event with an unreadable
    timestamp makes the hourly summary and the dashboard fail for as
    long as fewer than 1000 events are recorded after it. *)
Theorem unreadable_timestamp_persists (self : DetectionService) (bad : request)
    (rs : list request) (now : Z) (utcnow : string) :
  max_cache_size self = 1000%Z ->
  length (events_cache self) <= 1000 ->
  naive_timestamp (event_of bad) = None ->
  length rs < 1000 ->
  let later := record_all (record self bad) rs in
  (exists err, get_hourly_summary later now = Raise err)
  /\ (exists err, get_dashboard_summary later now utcnow = Raise err).
Proof.
  intros Hmax Hlen Hbad Hrs later.
  assert (Hin : Exists (fun e => naive_timestamp e = None) (events_cache later)).
  { subst later. change (record_all (record self bad) rs) with (record_all self (bad :: rs)).
    destruct (record_all_events_cache_from self (bad :: rs)) as [-> _]; [lia|].
    rewrite Hmax. rewrite fmap_cons, length_app, length_cons, length_fmap.
    change (Z.to_nat 1000) with 1000.
    rewrite drop_app_le by lia.
    apply Exists_app. right. by apply Exists_cons_hd. }
  destruct (get_hourly_summary_raises later now Hin) as [err Herr].
  split; [by exists err|].
  unfold get_dashboard_summary.
  destruct (get_statistics later) as [stats|err']; [|by exists err'].
  rewrite bind_Ok, Herr. by exists err.
Qed.

(** X13.  On a service of capacity 1000, once 1000 or more events with
    readable timestamps have been recorded, the hourly summary
    succeeds whatever was cached before: every older event has been
    evicted. *)
Theorem readable_events_recover (self : DetectionService) (rs : list request)
    (now : Z) :
  max_cache_size self = 1000%Z ->
  length (events_cache self) <= 1000 ->
  1000 <= length rs ->
  Forall (fun r => is_Some (naive_timestamp (event_of r))) rs ->
  events_cache (record_all self rs) = drop (length rs - 1000) (event_of <$> rs)
  /\ exists summary, get_hourly_summary (record_all self rs) now = Ok summary.
Proof.
  intros Hmax Hlen Hrs Hparse.
  assert (Hcache : events_cache (record_all self rs)
                   = drop (length rs - 1000) (event_of <$> rs)).
  { destruct (record_all_events_cache_from self rs) as [-> _]; [lia|].
    rewrite Hmax, length_app, length_fmap. change (Z.to_nat 1000) with 1000.
    rewrite drop_app_ge by lia. f_equal. lia. }
  split; [exact Hcache|].
  apply get_hourly_summary_returns; rewrite Hcache.
  - apply Forall_drop, Forall_fmap. exact Hparse.
  - rewrite length_drop, length_fmap. lia.
Qed.

End Unreadable.

(** The schema's example, then the three requests of the scenario. *)
Lemma unreadable_timestamp_persists_witness :
  exists err,
    get_dashboard_summary
      (record_all (record scenario documented_example) scenario_requests)
      (instant "2025-12-27T12:30:00") "2025-12-27T12:30:00" = Raise err.
Proof.
  apply (unreadable_timestamp_persists scenario documented_example scenario_requests).
  - reflexivity.
  - vm_compute. lia.
  - reflexivity.
  - vm_compute. lia.
Defined.

(** The schema's example, then a thousand readable events. *)
Lemma readable_events_recover_witness :
  exists summary,
    get_hourly_summary
      (record_all (record scenario documented_example)
         (replicate 1000 {| req_ear_value := 0.3; req_is_drowsy := false;
                            req_duration_ms := 100; req_timestamp := None;
                            req_utcnow := "2025-12-27T12:10:00" |}))
      (instant "2025-12-27T12:30:00") = Ok summary.
Proof.
  apply (readable_events_recover (record scenario documented_example)).
  - reflexivity.
  - vm_compute. lia.
  - rewrite length_replicate. lia.
  - apply Forall_replicate. vm_compute. eauto.
Defined.

(** ** The status of any statistics *)

(** X14.  [_get_system_status] on any dictionary: without the key
    "total_events" it raises [KeyError]; a dictionary with a non-zero
    total and no "drowsiness_rate" counts as rate 0 and is "normal";
    and a status that is returned is one of the four labels. *)
Theorem system_status_edges (stats : gmap string value) :
  (stats !! "total_events" = None -> _get_system_status stats = Raise KeyError)
  /\ (forall n, stats !! "total_events" = Some (VInt n) -> n <> 0%Z ->
                stats !! "drowsiness_rate" = None ->
                _get_system_status stats = Ok "normal")
  /\ (forall label, _get_system_status stats = Ok label ->
                    label ∈ ["idle"; "critical"; "warning"; "normal"]).
Proof.
  unfold _get_system_status. split; [|split].
  - by intros ->.
  - intros n -> Hn ->. cbn [value_eq_int default].
    destruct (Z.eqb_spec n 0); [done|]. reflexivity.
  - intros label.
    destruct (stats !! "total_events") as [total|]; [|discriminate].
    destruct (value_eq_int total 0); [intros [= <-]; repeat (first [apply list_elem_of_here | apply list_elem_of_further])|].
    destruct (value_gt_int _ 50) as [[]|]; cbn; [intros [= <-]; repeat (first [apply list_elem_of_here | apply list_elem_of_further])| |discriminate].
    destruct (value_gt_int _ 25) as [[]|]; cbn; [| |discriminate];
      intros [= <-]; repeat (first [apply list_elem_of_here | apply list_elem_of_further]).
Qed.

(** ** The routes *)

Lemma process_all_record_all (detection_service : DetectionService)
    (events : list (Main.DetectionEvent * string)) :
  Main.process_all detection_service events
  = (event_of <$> (request_of <$> events),
     record_all detection_service (request_of <$> events)).
Proof.
  revert detection_service.
  induction events as [|[event utcnow] events IH]; intros detection_service;
    [reflexivity|].
  cbn [Main.process_all].
  destruct (Main.process detection_service event utcnow) as [processed service] eqn:Hp.
  rewrite IH. rewrite !fmap_cons.
  change (record_all detection_service (request_of (event, utcnow) :: _))
    with (record_all (record detection_service (request_of (event, utcnow)))
            (request_of <$> events)).
  change (record detection_service (request_of (event, utcnow)))
    with (snd (Main.process detection_service event utcnow)).
  change (event_of (request_of (event, utcnow)))
    with (fst (Main.process detection_service event utcnow)).
  by rewrite Hp.
Qed.

(** X15.  [POST /telemetry] caches the event before the tracking
    backend is called: when that call fails the route answers 500, yet
    the event is in the cache, as its newest entry, just as after a
    200. *)
Theorem telemetry_caches_before_logging (detection_service : DetectionService)
    (event : Main.DetectionEvent) (utcnow : string) (run : result string) :
  (1 <= max_cache_size detection_service)%Z ->
  let answer := Main.log_detection_event detection_service event utcnow run in
  let processed := fst (Main.process detection_service event utcnow) in
  last (events_cache (snd answer)) = Some processed
  /\ snd answer = snd (Main.process detection_service event utcnow)
  /\ (fst answer = Main.Http500 <-> exists err, run = Raise err)
  /\ (forall run_id, run = Ok run_id ->
        fst answer
        = Main.Http200
            {| Main.response_status := "logged";
               Main.event_id := run_id;
               Main.response_timestamp := default utcnow (Main.event_timestamp event);
               Main.response_severity :=
                 _calculate_severity (Main.event_ear_value event)
                   (Main.event_duration_ms event) |}).
Proof.
  intros Hcap answer processed. subst answer processed.
  pose proof (process_detection_event_last detection_service
                (Main.event_ear_value event) (Main.event_is_drowsy event)
                (Main.event_duration_ms event) (Main.event_timestamp event)
                utcnow Hcap) as [Hlast _].
  cbn zeta in Hlast. fold (Main.process detection_service event utcnow) in Hlast.
  unfold Main.log_detection_event.
  destruct (Main.process detection_service event utcnow) as [processed service] eqn:Hp.
  cbn [fst snd] in Hlast.
  assert (Hprocessed : processed = fst (Main.process detection_service event utcnow))
    by (by rewrite Hp).
  destruct run as [run_id|err]; cbn [fst snd].
  - split; [done|]. split; [done|]. split.
    + split; [discriminate | intros [? [=]]].
    + intros ? [= <-]. rewrite Hprocessed.
      unfold Main.process, process_detection_event. cbn [fst timestamp severity].
      by destruct (Main.event_timestamp event).
  - split; [done|]. split; [done|]. split; [|discriminate].
    split; eauto.
Qed.

Lemma telemetry_caches_before_logging_witness :
  let event := {| Main.event_timestamp := Some "2025-12-27T12:00:03";
                  Main.event_ear_value := 0.15;
                  Main.event_is_drowsy := true;
                  Main.event_duration_ms := 3500 |} in
  let answer := Main.log_detection_event scenario event "2025-12-27T12:00:04"
                  (Raise ValueError) in
  fst answer = Main.Http500
  /\ length (events_cache (snd answer)) = 4.
Proof.
  intros event answer.
  destruct (telemetry_caches_before_logging scenario event "2025-12-27T12:00:04"
              (Raise ValueError)) as (_ & Hcache & Hfail & _).
  - vm_compute. discriminate.
  - split; [apply Hfail; eauto|].
    subst answer. rewrite Hcache. vm_compute. reflexivity.
Defined.

(** X16.  After [POST /telemetry/batch] on a service that respects its
    capacity, with a batch no larger than the capacity, the route
    reports the size of the batch, and [GET /events/recent] with that
    size as limit returns exactly the events of the batch, in order. *)
Theorem batch_then_recent (detection_service : DetectionService)
    (events : list (Main.DetectionEvent * string)) (utcnow later : string) :
  (Z.of_nat (length (events_cache detection_service))
   <= max_cache_size detection_service)%Z ->
  (1 <= Z.of_nat (length events) <= max_cache_size detection_service)%Z ->
  let answer := Main.log_batch_events detection_service events utcnow in
  let results := fst (Main.process_all detection_service events) in
  fst answer = Main.Http200 {| Main.batch_status := "success";
                               Main.events_logged := Z.of_nat (length events);
                               Main.batch_timestamp := utcnow |}
  /\ Main.get_recent_events (snd answer) (Z.of_nat (length events)) later
     = Main.Http200 {| Main.events := results;
                       Main.count := Z.of_nat (length events);
                       Main.recent_timestamp := later |}.
Proof.
  intros Hcap Hsize answer results. subst answer results.
  unfold Main.log_batch_events. rewrite process_all_record_all. cbn [fst snd].
  rewrite !length_fmap. split; [reflexivity|].
  unfold Main.get_recent_events.
  set (rs := request_of <$> events).
  assert (Hrs : length rs = length events) by (unfold rs; by rewrite length_fmap).
  destruct (get_recent_events_positive (record_all detection_service rs)
              (Z.of_nat (length events))) as [Hrecent _]; [lia|].
  destruct (record_all_events_cache_from detection_service rs Hcap) as [Hcache _].
  cbn zeta in Hcache.
  assert (Hnew : get_recent_events (record_all detection_service rs)
                   (Z.of_nat (length events)) = event_of <$> rs).
  { rewrite Hrecent, Hcache. rewrite length_drop, drop_drop, Nat2Z.id.
    rewrite length_app, length_fmap, Hrs.
    set (m := Z.to_nat (max_cache_size detection_service)).
    assert (length events <= m) by lia.
    assert (length (events_cache detection_service) <= m) by lia.
    replace (_ + _) with (length (events_cache detection_service)) by lia.
    by rewrite drop_app_length. }
  rewrite Hnew, length_fmap, Hrs. reflexivity.
Qed.

(** A batch of two on the scenario. *)
Lemma batch_then_recent_witness :
  let batch := [ ({| Main.event_timestamp := Some "2025-12-27T12:00:03";
                     Main.event_ear_value := 0.15;
                     Main.event_is_drowsy := true;
                     Main.event_duration_ms := 3500 |}, "2025-12-27T12:00:05");
                 ({| Main.event_timestamp := Some "2025-12-27T12:00:04";
                     Main.event_ear_value := 0.3;
                     Main.event_is_drowsy := false;
                     Main.event_duration_ms := 100 |}, "2025-12-27T12:00:05") ] in
  Main.get_recent_events
    (snd (Main.log_batch_events scenario batch "2025-12-27T12:00:05")) 2
    "2025-12-27T12:00:06"
  = Main.Http200 {| Main.events := fst (Main.process_all scenario batch);
                    Main.count := 2;
                    Main.recent_timestamp := "2025-12-27T12:00:06" |}.
Proof.
  intros batch.
  destruct (batch_then_recent scenario batch "2025-12-27T12:00:05"
              "2025-12-27T12:00:06") as [_ Hrecent].
  - vm_compute. discriminate.
  - vm_compute. split; discriminate.
  - exact Hrecent.
Defined.

(** X17.  [GET /statistics] on a cache within capacity whose durations
    sum to an exactly representable [int]: on the empty cache the route
    answers 500, because the dictionary of the empty branch lacks
    fields the response model requires; on a non-empty cache it
    answers 200, and the body carries the values of the statistics. *)
Theorem statistics_route (detection_service : DetectionService) :
  let events := events_cache detection_service in
  length events <= 1000 ->
  Py.small (Py.sum_int (map duration_ms events)) = true ->
  (events = [] -> Main.get_statistics detection_service = Main.Http500)
  /\ (events <> [] ->
      exists body stats,
        Main.get_statistics detection_service = Main.Http200 body
        /\ get_statistics detection_service = Ok stats
        /\ Main.total_events body = Z.of_nat (length events)
        /\ Main.drowsy_events body = Z.of_nat (length (drowsy events))
        /\ Main.severity_distribution body = severity_counts events
        /\ stats !! "average_ear" = Some (VFloat (Main.average_ear body))
        /\ stats !! "average_duration_ms" = Some (VFloat (Main.average_duration_ms body))
        /\ stats !! "drowsiness_rate" = Some (VFloat (Main.drowsiness_rate body))).
Proof.
  intros events.
  assert (Hcache : events_cache detection_service = events) by reflexivity.
  clearbody events. intros Hlen Hsum. split.
  - intros ->. unfold Main.get_statistics.
    by rewrite get_statistics_empty_cache.
  - intros Hne.
    destruct (get_statistics_result detection_service) as [[stats Hstats]|[_ [Hbig _]]];
      [by rewrite Hcache..| |rewrite Hcache in Hbig; congruence].
    pose proof Hstats as Hinv.
    apply get_statistics_inv in Hinv
      as (? & ? & ? & a & b & r & _ & _ & _ & _ & _ & _ & Heq);
      [|by rewrite Hcache].
    rewrite Hcache, count_drowsy_length in Heq.
    eexists _, stats. unfold Main.get_statistics. rewrite Hstats, bind_Ok.
    rewrite Heq. split; [reflexivity|]. repeat split.
Qed.

Lemma statistics_route_witness :
  Main.get_statistics init = Main.Http500
  /\ exists body, Main.get_statistics scenario = Main.Http200 body
                  /\ Main.total_events body = 3%Z.
Proof.
  split.
  - apply (statistics_route init); [vm_compute; lia | reflexivity | reflexivity].
  - destruct (statistics_route scenario) as [_ Hbody];
      [vm_compute; lia | reflexivity |].
    destruct Hbody as (body & stats & Hroute & _ & Htotal & _); [discriminate|].
    exists body. split; [exact Hroute | exact Htotal].
Defined.

(** X18.  [DELETE /events/cache] reports how many events were cached;
    after it, whatever was cached, [GET /dashboard] answers 200 with
    the status "idle", the statistics of the empty cache and the empty
    summary of the last hour, [GET /events/recent] returns no event for
    any limit, and [GET /statistics] answers 500. *)
Theorem routes_after_clear `{!IsoFormat} (detection_service : DetectionService)
    (cleared_at utcnow : string) (now limit : Z) :
  let answer := Main.clear_event_cache detection_service cleared_at in
  fst answer
  = Main.Http200
      {| Main.clear_status := "cleared";
         Main.events_cleared := Z.of_nat (length (events_cache detection_service));
         Main.clear_timestamp := cleared_at |}
  /\ Main.get_dashboard (snd answer) now utcnow
     = Main.Http200
         {| overall := {[ "total_events" := VInt 0;
                          "drowsy_events" := VInt 0;
                          "average_ear" := VFloat 0;
                          "average_duration" := VFloat 0;
                          "severity_distribution" := VDict ∅ ]};
            last_hour := {[ "events_count" := VInt 0; "period" := VStr "last_hour" ]};
            status := "idle";
            dashboard_timestamp := utcnow |}
  /\ Main.get_recent_events (snd answer) limit utcnow
     = Main.Http200 {| Main.events := []; Main.count := 0;
                       Main.recent_timestamp := utcnow |}
  /\ Main.get_statistics (snd answer) = Main.Http500.
Proof. repeat split. Qed.

(** ** The timestamp of a validated event *)

(** X19.  An event whose timestamp went through the validator
    [set_timestamp] is cached with the caller's string when that is not
    empty, and otherwise with the clock read by the validator: the
    default of [process_detection_event] is never taken, whatever the
    service clock reads. *)
Theorem validated_timestamp (detection_service : DetectionService)
    (event : Main.DetectionEvent) (v : option string)
    (validated_at service_clock : string) :
  Main.event_timestamp event = set_timestamp v validated_at ->
  timestamp (fst (Main.process detection_service event service_clock))
  = match v with
    | Some s => if String.eqb s "" then validated_at else s
    | None => validated_at
    end.
Proof.
  intros Hts. unfold Main.process, process_detection_event. cbn [fst timestamp].
  rewrite Hts. unfold set_timestamp, truthy.
  destruct v as [s|]; [|reflexivity]. by destruct (String.eqb s "").
Qed.

Lemma validated_timestamp_witness :
  timestamp
    (fst (Main.process scenario
            {| Main.event_timestamp := set_timestamp (Some "") "2025-12-27T12:00:03";
               Main.event_ear_value := 0.15;
               Main.event_is_drowsy := true;
               Main.event_duration_ms := 3500 |} "2025-12-27T12:00:09"))
  = "2025-12-27T12:00:03".
Proof.
  apply (validated_timestamp scenario _ (Some "") "2025-12-27T12:00:03").
  reflexivity.
Defined.
